(** * Path4GMNS, path.py: shortest paths over a transportation network

    A shallow embedding of the query layer of [path.py]: the cost-selector
    cache of [single_source_shortest_path], path reconstruction from the
    predecessor arrays, the one-to-one queries, the skim matrix and the
    agent loop.  Python floats are IEEE binary64 and are kept as primitive
    floats; node and link numbers are integers; node identifiers are
    strings. *)

From Stdlib Require Import ZArith PrimFloat Ascii String.
From stdpp Require Import gmap strings list.

Local Open Scope string_scope.
Local Open Scope list_scope.
Local Open Scope Z_scope.

(** ** Data model *)

Record Link := {
  link_id : string;          (* get_link_id() *)
  link_length : float;       (* .length *)
  fftt : float;
  allowed_uses : string
}.

Record Node := { zone_id : option string }.

Record Agent := {
  o_node_id : string;
  d_node_id : string;
  path_cost : float;
  node_path : list Z;
  link_path : list Z
}.

Record Mode := { mode_type : string; ffs : float; mode_name : string }.

(** The arrays handed to the compiled engine.  The last four are the
    buffers the engine fills; path.py reads three of them back as
    [G.node_label_cost], [G.node_preds] and [G.link_preds]. *)
Record CAPI := {
  from_node_no_arr : list Z;
  to_node_no_arr : list Z;
  first_links : list Z;
  last_links : list Z;
  sorted_link_no_arr : list Z;
  allowed_uses_arr : list string;
  link_costs : list float;
  capi_node_label_cost : list float;
  capi_node_preds : list Z;
  capi_link_preds : list Z;
  queue_next : list Z
}.

Record Network := {
  nodes : list Node;
  links : list Link;
  agents : list Agent;
  node_size : Z;
  link_size : Z;
  map_id_to_no : gmap string Z;
  map_no_to_id : gmap Z string;
  agent_type_name : string;
  last_thru_node : Z;
  length_unit : string;      (* get_length_unit() *)
  capi : CAPI
}.

Definition node_label_cost (G : Network) : list float := capi_node_label_cost (capi G).
Definition node_preds (G : Network) : list Z := capi_node_preds (capi G).
Definition link_preds (G : Network) : list Z := capi_link_preds (capi G).

(** The seventeen arguments of [_cdll.shortest_path_n], without the four
    output buffers, and the buffers it leaves behind. *)
Record EngineArgs := {
  arg_origin_node_no : Z;
  arg_node_size : Z;
  arg_from_node_no_arr : list Z;
  arg_to_node_no_arr : list Z;
  arg_first_links : list Z;
  arg_last_links : list Z;
  arg_sorted_link_no_arr : list Z;
  arg_allowed_uses : list string;
  arg_link_costs : list float;
  arg_agent_type_name : string;
  arg_max_label_cost : float;
  arg_last_thru_node : Z;
  arg_departure_time : Z
}.

Record Tree := {
  tree_label_costs : list float;
  tree_node_preds : list Z;
  tree_link_preds : list Z;
  tree_queue_next : list Z
}.

(** Modelled from the spec: what path.py imports or calls but does not
    define, as parameters: the constant of [consts.py], two methods of the
    network class, the compiled engine, the agent set-up and the [.4f]
    float formatter.  Their types follow the spec: [allocate_for_CAPI] and
    [init_link_costs] only (re)build engine-facing arrays (section 3,
    lifecycle), the cost array of a selector is derived from the links
    (section 4.1), and the engine computes its output buffers from its
    inputs alone, resetting them at the start of every call (section
    4.2). *)
Class Externals := {
  MAX_LABEL_COST : float;
  allocate_for_CAPI : Network -> CAPI;
  init_link_costs : list Link -> string -> list float;
  shortest_path_n : EngineArgs -> Tree;
  setup_agents : Network -> list (string * string) -> list Agent;
  format_4f : float -> string
}.

(** Field updates (Python attribute assignment). *)
Definition set_capi (c : CAPI) (G : Network) : Network :=
  {| nodes := nodes G; links := links G; agents := agents G;
     node_size := node_size G; link_size := link_size G;
     map_id_to_no := map_id_to_no G; map_no_to_id := map_no_to_id G;
     agent_type_name := agent_type_name G; last_thru_node := last_thru_node G;
     length_unit := length_unit G; capi := c |}.

Definition set_links (ls : list Link) (G : Network) : Network :=
  {| nodes := nodes G; links := ls; agents := agents G;
     node_size := node_size G; link_size := link_size G;
     map_id_to_no := map_id_to_no G; map_no_to_id := map_no_to_id G;
     agent_type_name := agent_type_name G; last_thru_node := last_thru_node G;
     length_unit := length_unit G; capi := capi G |}.

Definition set_agents (ags : list Agent) (G : Network) : Network :=
  {| nodes := nodes G; links := links G; agents := ags;
     node_size := node_size G; link_size := link_size G;
     map_id_to_no := map_id_to_no G; map_no_to_id := map_no_to_id G;
     agent_type_name := agent_type_name G; last_thru_node := last_thru_node G;
     length_unit := length_unit G; capi := capi G |}.

Definition set_link_costs (lc : list float) (G : Network) : Network :=
  set_capi
    {| from_node_no_arr := from_node_no_arr (capi G);
       to_node_no_arr := to_node_no_arr (capi G);
       first_links := first_links (capi G);
       last_links := last_links (capi G);
       sorted_link_no_arr := sorted_link_no_arr (capi G);
       allowed_uses_arr := allowed_uses_arr (capi G);
       link_costs := lc;
       capi_node_label_cost := capi_node_label_cost (capi G);
       capi_node_preds := capi_node_preds (capi G);
       capi_link_preds := capi_link_preds (capi G);
       queue_next := queue_next (capi G) |} G.

Definition write_tree (t : Tree) (G : Network) : Network :=
  set_capi
    {| from_node_no_arr := from_node_no_arr (capi G);
       to_node_no_arr := to_node_no_arr (capi G);
       first_links := first_links (capi G);
       last_links := last_links (capi G);
       sorted_link_no_arr := sorted_link_no_arr (capi G);
       allowed_uses_arr := allowed_uses_arr (capi G);
       link_costs := link_costs (capi G);
       capi_node_label_cost := tree_label_costs t;
       capi_node_preds := tree_node_preds t;
       capi_link_preds := tree_link_preds t;
       queue_next := tree_queue_next t |} G.

Definition set_fftt (x : float) (l : Link) : Link :=
  {| link_id := link_id l; link_length := link_length l; fftt := x;
     allowed_uses := allowed_uses l |}.

Definition set_path_cost (x : float) (a : Agent) : Agent :=
  {| o_node_id := o_node_id a; d_node_id := d_node_id a; path_cost := x;
     node_path := node_path a; link_path := link_path a |}.

Definition set_paths (np lp : list Z) (a : Agent) : Agent :=
  {| o_node_id := o_node_id a; d_node_id := d_node_id a;
     path_cost := path_cost a; node_path := np; link_path := lp |}.

(** ** Python values and control *)

Inductive exn :=
| Exception (msg : string)
| ValueError (msg : string)
| KeyError
| IndexError
| ZeroDivisionError
| UnboundLocalError
| OutOfFuel.   (* not a Python exception: a [while] loop outran the fuel *)

Inductive outcome (A : Type) :=
| Return (a : A)
| Raise (e : exn).
Arguments Return {A} a.
Arguments Raise {A} e.

(** [l[i]] on a Python list: negative indices count from the end. *)
Definition getitem {A : Type} (l : list A) (i : Z) : outcome A :=
  let n := Z.of_nat (length l) in
  let k := if 0 <=? i then i else n + i in
  if k <? 0 then Raise IndexError
  else match l !! Z.to_nat k with
       | Some x => Return x
       | None => Raise IndexError
       end.

(** [d[k]] on a dict. *)
Definition dict_getitem {K : Type} `{Countable K} {A : Type}
    (d : gmap K A) (k : K) : outcome A :=
  match d !! k with
  | Some x => Return x
  | None => Raise KeyError
  end.

Definition startswith (s p : string) : bool := String.prefix p s.

(** [sub in s] on strings. *)
Definition str_contains (sub s : string) : bool :=
  match String.index 0 sub s with Some _ => true | None => false end.

Definition is_space (c : ascii) : bool :=
  let n := nat_of_ascii c in
  ((9 <=? n) && (n <=? 13) || (28 <=? n) && (n <=? 32))%nat.

Definition is_digit (c : ascii) : bool :=
  let n := nat_of_ascii c in ((48 <=? n) && (n <=? 57))%nat.

Fixpoint lstrip (s : string) : string :=
  match s with
  | String c s' => if is_space c then lstrip s' else s
  | EmptyString => EmptyString
  end.

Definition strip (s : string) : string :=
  String.rev (lstrip (String.rev (lstrip s))).

Fixpoint all_digits (s : string) : bool :=
  match s with
  | String c s' => is_digit c && all_digits s'
  | EmptyString => true
  end.

Definition isdigit (s : string) : bool :=
  match s with EmptyString => false | _ => all_digits s end.

(** ** The interpreter state

    The network object [G] is passed by reference and mutated in place;
    the model keeps it in the state, next to the module-level global
    [_prev_cost_type].  [calls] is a ghost log of the calls made into the
    network class and the engine. *)

Inductive Call :=
| CallAllocate
| CallInitLinkCosts (cost_type : string)
| CallEngine (origin_node_no : Z).

Record World := {
  net : Network;
  _prev_cost_type : string;
  calls : list Call
}.

(** The state of a freshly loaded module around a network. *)
Definition module_load (G : Network) : World :=
  {| net := G; _prev_cost_type := "time"; calls := [] |}.

Definition M (A : Type) : Type := World -> outcome A * World.

Definition ret {A : Type} (a : A) : M A := fun w => (Return a, w).
Definition raise {A : Type} (e : exn) : M A := fun w => (Raise e, w).
Definition bind {A B : Type} (m : M A) (k : A -> M B) : M B :=
  fun w => match m w with
           | (Return a, w') => k a w'
           | (Raise e, w') => (Raise e, w')
           end.

Notation "x <- m ;; k" := (bind m (fun x => k))
  (at level 100, m at next level, right associativity).
Notation "m ;;; k" := (bind m (fun _ => k))
  (at level 100, right associativity).

Definition lift {A : Type} (o : outcome A) : M A := fun w => (o, w).
Definition read {A : Type} (f : Network -> A) : M A := fun w => (Return (f (net w)), w).
Definition update (f : Network -> Network) : M unit :=
  fun w => (Return tt,
            {| net := f (net w); _prev_cost_type := _prev_cost_type w;
               calls := calls w |}).
Definition log (c : Call) : M unit :=
  fun w => (Return tt,
            {| net := net w; _prev_cost_type := _prev_cost_type w;
               calls := calls w ++ [c] |}).
Definition get_prev_cost_type : M string :=
  fun w => (Return (_prev_cost_type w), w).
Definition set_prev_cost_type (c : string) : M unit :=
  fun w => (Return tt,
            {| net := net w; _prev_cost_type := c; calls := calls w |}).

Fixpoint mapM {A B : Type} (f : A -> M B) (l : list A) : M (list B) :=
  match l with
  | [] => ret []
  | x :: l' => y <- f x ;; ys <- mapM f l' ;; ret (y :: ys)
  end.

Section Model.
Context `{Externals}.

(** Modelled from the spec: [G.get_node_no], a method of the network class
    that path.py calls; the identifier-to-index mapping (section 3, Node). *)
Definition get_node_no (G : Network) (node_id : string) : outcome Z :=
  dict_getitem (map_id_to_no G) node_id.

(** Modelled from the spec: [G.get_path_cost], a method of the network
    class that path.py calls; the destination's label, which callers
    compare with the sentinel (section 4.2, failure semantics). *)
Definition get_path_cost (G : Network) (to_node_id cost_type : string) : outcome float :=
  match dict_getitem (map_id_to_no G) to_node_id with
  | Return to_node_no => getitem (node_label_cost G) to_node_no
  | Raise e => Raise e
  end.

(** Modelled from the spec: [G.get_agent_count], a method of the network
    class that path.py calls; the number of agents (section 6, demand). *)
Definition get_agent_count (G : Network) : Z := Z.of_nat (length (agents G)).

Definition engine_args (G : Network) (origin_node_no departure_time : Z) : EngineArgs :=
  {| arg_origin_node_no := origin_node_no;
     arg_node_size := node_size G;
     arg_from_node_no_arr := from_node_no_arr (capi G);
     arg_to_node_no_arr := to_node_no_arr (capi G);
     arg_first_links := first_links (capi G);
     arg_last_links := last_links (capi G);
     arg_sorted_link_no_arr := sorted_link_no_arr (capi G);
     arg_allowed_uses := allowed_uses_arr (capi G);
     arg_link_costs := link_costs (capi G);
     arg_agent_type_name := agent_type_name G;
     arg_max_label_cost := MAX_LABEL_COST;
     arg_last_thru_node := last_thru_node G;
     arg_departure_time := departure_time |}.

Definition _optimal_label_correcting_CAPI (origin_node_no departure_time : Z) : M unit :=
  log (CallEngine origin_node_no) ;;;
  update (fun G => write_tree (shortest_path_n (engine_args G origin_node_no departure_time)) G).

Definition single_source_shortest_path (orig_node_id cost_type : string) : M unit :=
  log CallAllocate ;;;
  update (fun G => set_capi (allocate_for_CAPI G) G) ;;;
  prev <- get_prev_cost_type ;;
  (if negb (String.eqb prev cost_type)
   then log (CallInitLinkCosts cost_type) ;;;
        update (fun G => set_link_costs (init_link_costs (links G) cost_type) G) ;;;
        set_prev_cost_type cost_type
   else ret tt) ;;;
  orig_node_no <- (G <- read id ;; lift (get_node_no G orig_node_id)) ;;
  _optimal_label_correcting_CAPI orig_node_no 0.

(** *** Path reconstruction *)

Fixpoint walk_node_preds (fuel : nat) (G : Network) (curr_node_no : Z)
    (path : list Z) : outcome (list Z) :=
  if 0 <=? curr_node_no then
    match fuel with
    | O => Raise OutOfFuel
    | S fuel' =>
        match getitem (node_preds G) curr_node_no with
        | Return p => walk_node_preds fuel' G p (path ++ [curr_node_no])
        | Raise e => Raise e
        end
    end
  else Return path.

Fixpoint walk_link_preds (fuel : nat) (G : Network) (curr_node_no curr_link_no : Z)
    (path : list Z) : outcome (list Z) :=
  if 0 <=? curr_link_no then
    match fuel with
    | O => Raise OutOfFuel
    | S fuel' =>
        match getitem (node_preds G) curr_node_no with
        | Return p =>
            match getitem (link_preds G) p with
            | Return l => walk_link_preds fuel' G p l (path ++ [curr_link_no])
            | Raise e => Raise e
            end
        | Raise e => Raise e
        end
    end
  else Return path.

(** The values a generator yields, in order; an exception raised while
    producing one of them ends the sequence with that exception. *)
Fixpoint yield_all {A B : Type} (f : A -> outcome B) (l : list A) : outcome (list B) :=
  match l with
  | [] => Return []
  | x :: l' =>
      match f x with
      | Return y =>
          match yield_all f l' with
          | Return ys => Return (y :: ys)
          | Raise e => Raise e
          end
      | Raise e => Raise e
      end
  end.

Definition output_path_sequence (fuel : nat) (G : Network) (to_node_id type : string)
    : outcome (list string) :=
  match dict_getitem (map_id_to_no G) to_node_id with
  | Raise e => Raise e
  | Return curr_node_no =>
      if startswith type "node" then
        match walk_node_preds fuel G curr_node_no [] with
        | Raise e => Raise e
        | Return path =>
            yield_all (fun node_no => dict_getitem (map_no_to_id G) node_no) (rev path)
        end
      else
        match getitem (link_preds G) curr_node_no with
        | Raise e => Raise e
        | Return curr_link_no =>
            match walk_link_preds fuel G curr_node_no curr_link_no [] with
            | Raise e => Raise e
            | Return path =>
                yield_all (fun link_no =>
                             match getitem (links G) link_no with
                             | Return l => Return (link_id l)
                             | Raise e => Raise e
                             end) (rev path)
            end
        end
  end.

Definition _get_path_sequence_str (fuel : nat) (G : Network) (to_node_id seq_type : string)
    : outcome string :=
  match output_path_sequence fuel G to_node_id seq_type with
  | Return xs => Return (String.concat ";" xs)
  | Raise e => Raise e
  end.

(** *** One-to-one queries *)

Definition not_in_network (node_id : string) : exn :=
  Exception ("Node ID: " +:+ node_id +:+ " not in the network").

Definition check_node (node_id : string) : M unit :=
  G <- read id ;;
  match map_id_to_no G !! node_id with
  | None => raise (not_in_network node_id)
  | Some _ => ret tt
  end.

Definition find_shortest_path (fuel : nat)
    (from_node_id to_node_id seq_type cost_type : string) : M string :=
  check_node from_node_id ;;;
  check_node to_node_id ;;;
  single_source_shortest_path from_node_id cost_type ;;;
  path_cost <- (G <- read id ;; lift (get_path_cost G to_node_id cost_type)) ;;
  if PrimFloat.leb MAX_LABEL_COST path_cost
  then ret ("path " +:+ cost_type +:+ ": infinity | path: ")
  else
    path <- (G <- read id ;; lift (_get_path_sequence_str fuel G to_node_id seq_type)) ;;
    unit <- (if startswith cost_type "dis"
             then G <- read id ;; ret (length_unit G +:+ "s")
             else ret "minutes") ;;
    if startswith seq_type "node"
    then ret ("path " +:+ cost_type +:+ ": " +:+ format_4f path_cost +:+ " "
              +:+ unit +:+ " | node path: " +:+ path)
    else ret ("path " +:+ cost_type +:+ ": " +:+ format_4f path_cost +:+ " "
              +:+ unit +:+ " | link path: " +:+ path).

(** The placeholder is the integer literal 9999999 in Python; it is kept
    here as the float of the same value. *)
Definition NO_PATH_COST : float := 9999999%float.

Definition get_shortest_path (from_node_id to_node_id cost_type : string) : M float :=
  check_node from_node_id ;;;
  check_node to_node_id ;;;
  single_source_shortest_path from_node_id cost_type ;;;
  path_cost <- (G <- read id ;; lift (get_path_cost G to_node_id cost_type)) ;;
  if PrimFloat.leb MAX_LABEL_COST path_cost
  then ret NO_PATH_COST
  else ret path_cost.

(** *** The skim matrix

    [Parallel(n_jobs=-1)(delayed(f)(...) for row_node in row_nodes)] is the
    list of the results in the order of [row_nodes]; the rows are computed
    here one after the other on the one network. *)
Definition compute_row_distances (row_node : string) (row_nodes : list string)
    (cost_type : string) : M (list float) :=
  mapM (fun col_node => get_shortest_path row_node col_node cost_type) row_nodes.

Definition create_numpy_matrix_parallel (row_nodes : list string) (cost_type : string)
    : M (list (list float)) :=
  mapM (fun row_node => compute_row_distances row_node row_nodes cost_type) row_nodes.

(** *** The shortest-path tree

    After the engine call the body of the function is one string literal
    (the dictionary code sits between triple quotes), so the function
    falls off its end and returns Python's [None]. *)
Definition get_shortest_path_tree
    (from_node_id seq_type cost_type : string) (integer_node_id : bool)
    : M (option (gmap string (float * string))) :=
  check_node from_node_id ;;;
  single_source_shortest_path from_node_id cost_type ;;;
  ret None.

(** *** Mode-specific link times and the network skim *)

(** Python's [/] on floats raises on a zero divisor. *)
Definition py_div (x y : float) : outcome float :=
  if PrimFloat.eqb y 0 then Raise ZeroDivisionError else Return (x / y)%float.

(** [(length * 5280) / ffs / 60] and [length / ffs * 60]. *)
Definition walk_time (length ffs : float) : outcome float :=
  match py_div (length * 5280)%float ffs with
  | Return q => Return (q / 60)%float
  | Raise e => Raise e
  end.

Definition bike_time (length ffs : float) : outcome float :=
  match py_div length ffs with
  | Return q => Return (q * 60)%float
  | Raise e => Raise e
  end.

Definition get_link (i : Z) : M Link :=
  G <- read id ;; lift (getitem (links G) i).

(** [G.links[i].fftt = x] *)
Definition assign_fftt (i : Z) (x : float) : M unit :=
  l <- get_link i ;;
  update (fun G => set_links (<[Z.to_nat i := set_fftt x l]> (links G)) G).

(** [for i in range(n): body] *)
Fixpoint for_each {A : Type} (body : A -> M unit) (l : list A) : M unit :=
  match l with
  | [] => ret tt
  | x :: l' => body x ;;; for_each body l'
  end.

Definition for_range (n : Z) (body : Z -> M unit) : M unit :=
  for_each body (seqZ 0 n).

Definition convert_walk (mode : Mode) (i : Z) : M unit :=
  l <- get_link i ;;
  x <- lift (walk_time (link_length l) (ffs mode)) ;;
  assign_fftt i x.

Definition convert_walk_on_pedestrian_links (mode : Mode) (i : Z) : M unit :=
  l <- get_link i ;;
  if str_contains "p" (allowed_uses l) then convert_walk mode i else ret tt.

Definition convert_bike (mode : Mode) (i : Z) : M unit :=
  l <- get_link i ;;
  x <- lift (bike_time (link_length l) (ffs mode)) ;;
  assign_fftt i x.

(** The two [if] statements on [mode.type] (the second with its [elif]). *)
Definition apply_mode (mode : Mode) : M unit :=
  G <- read id ;;
  (if String.eqb (mode_type mode) "p"
   then for_range (link_size G) (convert_walk mode)
   else ret tt) ;;;
  (if String.eqb (mode_type mode) "t"
   then for_range (link_size G) (convert_walk_on_pedestrian_links mode)
   else if String.eqb (mode_type mode) "b"
   then for_range (link_size G) (convert_bike mode)
   else ret tt).

(** [[G.nodes[i].zone_id for i in range(G.node_size) if zone_id and
    zone_id.strip().isdigit()]] *)
Definition centroid_ids (G : Network) : outcome (list string) :=
  match yield_all (fun i => getitem (nodes G) i) (seqZ 0 (node_size G)) with
  | Raise e => Raise e
  | Return ns =>
      Return (omap (fun n => match zone_id n with
                             | Some z => if negb (String.eqb z "") && isdigit (strip z)
                                         then Some z else None
                             | None => None
                             end) ns)
  end.

(** What the export step is handed (the files themselves are written by
    [save_as_csv] and [save_to_omx]). *)
Inductive Export :=
| ExportCsv (output_dir file_name : string) (matrix : list (list float)) (row_nodes : list string)
| ExportOmx (output_dir file_name matrix_name : string) (matrix : list (list float))
            (row_nodes : list string).

(** From the matrix computation to the export. *)
Definition export_skim (output_dir output_type cost_type : string) (mode : Mode)
    (row_nodes : list string) : M Export :=
  skim_matrix <- create_numpy_matrix_parallel row_nodes cost_type ;;
  (if String.eqb cost_type "time" || String.eqb cost_type "distance"
   then ret tt
   else raise UnboundLocalError) ;;;
  if String.eqb output_type ".csv"
  then ret (ExportCsv output_dir
              ("shortest_path_matrix_" +:+ cost_type +:+ "_" +:+ mode_name mode +:+ output_type)
              skim_matrix row_nodes)
  else ret (ExportOmx output_dir
              ("shortest_path_matrix_" +:+ cost_type +:+ output_type)
              (mode_name mode) skim_matrix row_nodes).

(** The message of the [ValueError] ends with the printed set of the
    supported types, whose order Python does not fix; it is left out. *)
Definition find_shortest_path_network (output_dir output_type cost_type : string)
    (mode : Mode) : M Export :=
  (if String.eqb output_type ".omx" || String.eqb output_type ".csv"
   then ret tt
   else raise (ValueError ("Error: Unsupported output type '" +:+ output_type +:+ "'."))) ;;;
  row_nodes <- (G <- read id ;; lift (centroid_ids G)) ;;
  apply_mode mode ;;;
  export_skim output_dir output_type cost_type mode row_nodes.

(** *** Agents *)

Fixpoint retrieve_sequence (fuel : nat) (G : Network) (curr_node_no : Z)
    (node_path link_path : list Z) : outcome (list Z * list Z) :=
  if 0 <=? curr_node_no then
    match fuel with
    | O => Raise OutOfFuel
    | S fuel' =>
        match getitem (link_preds G) curr_node_no with
        | Raise e => Raise e
        | Return curr_link_no =>
            match getitem (node_preds G) curr_node_no with
            | Raise e => Raise e
            | Return p =>
                retrieve_sequence fuel' G p (node_path ++ [curr_node_no])
                  (if 0 <=? curr_link_no then link_path ++ [curr_link_no] else link_path)
            end
        end
    end
  else Return (node_path, link_path).

Definition get_agent (i : nat) : M Agent :=
  G <- read id ;;
  match agents G !! i with
  | Some a => ret a
  | None => raise IndexError
  end.

Definition modify_agent (i : nat) (f : Agent -> Agent) : M unit :=
  update (fun G => set_agents (alter f i (agents G)) G).

(** From [node_path = []] to the end of the loop body. *)
Definition set_up_path (fuel : nat) (i : nat) (to_node_id : string) : M unit :=
  curr_node_no <- (G <- read id ;; lift (dict_getitem (map_id_to_no G) to_node_id)) ;;
  label <- (G <- read id ;; lift (getitem (node_label_cost G) curr_node_no)) ;;
  modify_agent i (set_path_cost label) ;;;
  paths <- (G <- read id ;; lift (retrieve_sequence fuel G curr_node_no [] [])) ;;
  match snd paths with
  | [] => ret tt
  | _ :: _ => modify_agent i (set_paths (fst paths) (snd paths))
  end.

(** One pass of the loop body for the agent at position [i]; the result
    is the value of [from_node_id_prev] after it. *)
Definition agent_iteration (fuel : nat) (engine_type : string)
    (from_node_id_prev : string) (i : nat) : M string :=
  agent <- get_agent i ;;
  let from_node_id := o_node_id agent in
  let to_node_id := d_node_id agent in
  if String.eqb from_node_id to_node_id then ret from_node_id_prev
  else
    check_node from_node_id ;;;
    check_node to_node_id ;;;
    prev <- (if negb (String.eqb from_node_id from_node_id_prev)
             then single_source_shortest_path from_node_id engine_type ;;;
                  ret from_node_id
             else ret from_node_id_prev) ;;
    set_up_path fuel i to_node_id ;;;
    ret prev.

(** [for agent in G.agents]: the passes over the given positions, the
    local [from_node_id_prev] carried from one to the next. *)
Fixpoint for_agents (body : string -> nat -> M string) (from_node_id_prev : string)
    (positions : list nat) : M string :=
  match positions with
  | [] => ret from_node_id_prev
  | i :: rest => prev <- body from_node_id_prev i ;; for_agents body prev rest
  end.

Definition ensure_agents (column_pool : list (string * string)) : M unit :=
  G <- read id ;;
  if get_agent_count G =? 0
  then update (fun G => set_agents (setup_agents G column_pool) G)
  else ret tt.

Definition find_path_for_agents (fuel : nat) (column_pool : list (string * string))
    (engine_type : string) : M unit :=
  ensure_agents column_pool ;;;
  G <- read id ;;
  for_agents (agent_iteration fuel engine_type) "" (seq 0 (length (agents G))) ;;;
  ret tt.

(** The variant the repeated-origin cache is compared with: the same loop
    with the tree recomputed for every agent that reaches the engine
    step. *)
Definition agent_iteration_recompute (fuel : nat) (engine_type : string)
    (from_node_id_prev : string) (i : nat) : M string :=
  agent <- get_agent i ;;
  let from_node_id := o_node_id agent in
  let to_node_id := d_node_id agent in
  if String.eqb from_node_id to_node_id then ret from_node_id_prev
  else
    check_node from_node_id ;;;
    check_node to_node_id ;;;
    single_source_shortest_path from_node_id engine_type ;;;
    set_up_path fuel i to_node_id ;;;
    ret from_node_id.

Definition find_path_for_agents_recompute (fuel : nat)
    (column_pool : list (string * string)) (engine_type : string) : M unit :=
  ensure_agents column_pool ;;;
  G <- read id ;;
  for_agents (agent_iteration_recompute fuel engine_type) "" (seq 0 (length (agents G))) ;;;
  ret tt.

End Model.

(** ** The rest of path.py *)

Section Benchmark.
Context `{Externals}.


End Benchmark.

Section Csv.
Variable format_2f : float -> string.   (* f"{val:.2f}" *)

(** The data rows of [save_as_csv], from the row numbered [i] on: the
    rows given to [writer.writerow], in order, and the exception that ends
    the writing, if one does. *)
Fixpoint csv_data (row_nodes : list string) (i : Z) (matrix : list (list float))
    : list (list string) * option exn :=
  match matrix with
  | [] => ([], None)
  | row :: rest =>
      match getitem row_nodes i with
      | Return r =>
          let (lines, e) := csv_data row_nodes (i + 1) rest in
          ((r :: map format_2f row) :: lines, e)
      | Raise e => ([], Some e)
      end
  end.

(** The header row [[""] + row_nodes], then the data rows. *)
Definition save_as_csv (matrix : list (list float)) (row_nodes : list string)
    : list (list string) * option exn :=
  let (lines, e) := csv_data row_nodes 0 matrix in
  (("" :: row_nodes) :: lines, e).

End Csv.

(** What the loops of [apply_mode] leave of one link. *)
Definition converted_link (mode : Mode) (l : Link) : Link :=
  if String.eqb (mode_type mode) "p"
  then set_fftt (link_length l * 5280 / ffs mode / 60)%float l
  else if String.eqb (mode_type mode) "t"
  then (if str_contains "p" (allowed_uses l)
        then set_fftt (link_length l * 5280 / ffs mode / 60)%float l
        else l)
  else if String.eqb (mode_type mode) "b"
  then set_fftt (link_length l / ffs mode * 60)%float l
  else l.

(** ** Contracts of the absent network class and engine *)

(** [G] has its engine arrays: a further [allocate_for_CAPI] is a no-op. *)
Definition allocated `{Externals} (G : Network) : Prop :=
  allocate_for_CAPI G = capi G.

(** Modelled from the spec: the engine-facing arrays are "built once per
    network load" (section 3, lifecycle; section 2, graph view), so once a
    network has them, allocating again changes nothing, whatever happened
    to the cost array, the tree buffers or the agents in between. *)
Class AllocatesOnce `{Externals} : Prop := {
  allocate_once : forall G, allocated (set_capi (allocate_for_CAPI G) G);
  allocated_link_costs : forall G lc, allocated G -> allocated (set_link_costs lc G);
  allocated_tree : forall G t, allocated G -> allocated (write_tree t G);
  allocated_agents : forall G ags, allocated G -> allocated (set_agents ags G)
}.

(** The cost array the next engine call on this network will see (that of
    the network once allocated) is the one of the remembered selector. *)
Definition costs_current `{Externals} (w : World) : Prop :=
  link_costs (allocate_for_CAPI (net w))
  = init_link_costs (links (net w)) (_prev_cost_type w).

(** The network as [single_source_shortest_path] hands it to the engine:
    allocated, and with the cost array rebuilt when the selector differs
    from the remembered one. *)
Definition prepared `{Externals} (cost_type : string) (w : World) : Network :=
  let G := set_capi (allocate_for_CAPI (net w)) (net w) in
  if String.eqb (_prev_cost_type w) cost_type then G
  else set_link_costs (init_link_costs (links G) cost_type) G.

Definition prepared_calls (cost_type : string) (w : World) : list Call :=
  if String.eqb (_prev_cost_type w) cost_type
  then calls w ++ [CallAllocate]
  else (calls w ++ [CallAllocate]) ++ [CallInitLinkCosts cost_type].

(** The state with the links of the network replaced. *)
Definition with_links (ls : list Link) (w : World) : World :=
  {| net := set_links ls (net w); _prev_cost_type := _prev_cost_type w;
     calls := calls w |}.

(** The state with the agents of the network replaced. *)
Definition with_agents (ags : list Agent) (w : World) : World :=
  {| net := set_agents ags (net w); _prev_cost_type := _prev_cost_type w;
     calls := calls w |}.

(** A computation that reads and writes the network only. *)
Definition net_only {A : Type} (m : M A) : Prop :=
  forall w1 w2, net w1 = net w2 ->
    fst (m w1) = fst (m w2) /\
    net (snd (m w1)) = net (snd (m w2)) /\
    _prev_cost_type (snd (m w1)) = _prev_cost_type w1 /\
    calls (snd (m w1)) = calls w1.

(** The same module state with another network object as [G]. *)
Definition on_network (G : Network) (w : World) : World :=
  {| net := G; _prev_cost_type := _prev_cost_type w; calls := calls w |}.

(** Two states that differ at most in the ghost log. *)
Definition same_state (w1 w2 : World) : Prop :=
  net w1 = net w2 /\ _prev_cost_type w1 = _prev_cost_type w2.

(** The tree buffers of [w] are those of a run from [orig] under the
    selector [cost_type], on a network that needs no further preparation. *)
Definition tree_current `{Externals} (orig cost_type : string) (w : World) : Prop :=
  exists n,
    map_id_to_no (net w) !! orig = Some n /\
    allocated (net w) /\
    _prev_cost_type w = cost_type /\
    write_tree (shortest_path_n (engine_args (net w) n 0)) (net w) = net w.

(** [w] is what a query under [cost_type] leaves of [w0], up to the tree
    buffers. *)
Definition aligned `{Externals} (cost_type : string) (w0 w : World) : Prop :=
  _prev_cost_type w = cost_type /\
  exists t, net w = write_tree t (prepared cost_type w0).

(** Modelled from the spec: the tree invariant of section 3, "the origin's
    label is zero", for the compiled engine. *)
Class OriginLabelZero `{Externals} : Prop :=
  origin_label_zero : forall a,
    0 <= arg_origin_node_no a < arg_node_size a ->
    getitem (tree_label_costs (shortest_path_n a)) (arg_origin_node_no a)
    = Return 0%float.

(** The origins of the agents that reach the engine step, in order, and
    among them those that differ from the origin just before (the first
    one always does). *)
Definition od (a : Agent) : string * string := (o_node_id a, d_node_id a).

Definition processed_origins (ods : list (string * string)) : list string :=
  map fst (filter (fun p => fst p <> snd p) ods).

Fixpoint origin_changes (preceding : option string) (origins : list string) : list string :=
  match origins with
  | [] => []
  | o :: rest =>
      match preceding with
      | Some p => if String.eqb o p then origin_changes (Some o) rest
                  else o :: origin_changes (Some o) rest
      | None => o :: origin_changes (Some o) rest
      end
  end.

Definition value_of (o : outcome float) : float :=
  match o with Return x => x | Raise _ => 0%float end.

Definition engine_calls (l : list Call) : list Z :=
  omap (fun c => match c with CallEngine n => Some n | _ => None end) l.

(** ** An instance for concrete runs

    The diamond network of the spec (section 8): nodes 1..4, links 1->2,
    1->3, 2->4, 3->4 with times 1, 4, 2, 1, and an instance of the
    externals to run it with. *)
Module Diamond.

Definition MAX : float := 2147483647%float.

(** Modelled from the spec: the engine's start (section 4.2): origin label
    zero, every other label the sentinel, no predecessors. *)
Definition init_tree (a : EngineArgs) : Tree :=
  let n := Z.to_nat (arg_node_size a) in
  {| tree_label_costs :=
       <[Z.to_nat (arg_origin_node_no a) := 0%float]> (replicate n (arg_max_label_cost a));
     tree_node_preds := replicate n (-1);
     tree_link_preds := replicate n (-1);
     tree_queue_next := replicate n 0 |}.

(** Modelled from the spec: the relaxation of one link (section 4.2),
    without the mode filter and the through-node boundary, and never into
    the origin. *)
Definition relax (a : EngineArgs) (t : Tree) (k : nat) : Tree :=
  match arg_from_node_no_arr a !! k, arg_to_node_no_arr a !! k, arg_link_costs a !! k with
  | Some u, Some v, Some c =>
      if (v =? arg_origin_node_no a) || (v <? 0) || (u <? 0) then t
      else
        match tree_label_costs t !! Z.to_nat u, tree_label_costs t !! Z.to_nat v with
        | Some lu, Some lv =>
            if PrimFloat.ltb (lu + c)%float lv
            then {| tree_label_costs := <[Z.to_nat v := (lu + c)%float]> (tree_label_costs t);
                    tree_node_preds := <[Z.to_nat v := u]> (tree_node_preds t);
                    tree_link_preds := <[Z.to_nat v := Z.of_nat k]> (tree_link_preds t);
                    tree_queue_next := tree_queue_next t |}
            else t
        | _, _ => t
        end
  | _, _, _ => t
  end.

Definition sweep (a : EngineArgs) (t : Tree) : Tree :=
  foldl (relax a) t (seq 0 (length (arg_from_node_no_arr a))).

(** Modelled from the spec: a label-correcting engine (section 4.2) that
    relaxes every link [node_size] times, in place of the deque order. *)
Definition label_correcting (a : EngineArgs) : Tree :=
  Nat.iter (Z.to_nat (arg_node_size a)) (sweep a) (init_tree a).

(** Modelled from the spec: the cost array of a selector (section 3, Link):
    lengths for a distance selector, free-flow times otherwise. *)
Definition link_cost_array (ls : list Link) (cost_type : string) : list float :=
  if startswith cost_type "dis" then map link_length ls else map fftt ls.

(** Modelled from the spec: an agent of the demand (section 3, Agent), with
    no path yet. *)
Definition new_agent (od : string * string) : Agent :=
  {| o_node_id := fst od; d_node_id := snd od; path_cost := 0%float;
     node_path := []; link_path := [] |}.

(** Modelled from the spec: the externals of the diamond runs; the arrays
    are present from the load, so allocation keeps them. *)
#[export] Instance externals : Externals := {|
  MAX_LABEL_COST := MAX;
  allocate_for_CAPI := capi;
  init_link_costs := link_cost_array;
  shortest_path_n := label_correcting;
  setup_agents := fun _ pool => map new_agent pool;
  format_4f := fun _ => "#.####"
|}.

Definition the_links : list Link :=
  [ {| link_id := "1"; link_length := 0.5%float; fftt := 1%float; allowed_uses := "a;p" |};
    {| link_id := "2"; link_length := 0.25%float; fftt := 4%float; allowed_uses := "a" |};
    {| link_id := "3"; link_length := 1.5%float; fftt := 2%float; allowed_uses := "p" |};
    {| link_id := "4"; link_length := 0.25%float; fftt := 1%float; allowed_uses := "a" |} ].

Definition arrays : CAPI :=
  {| from_node_no_arr := [0; 0; 1; 2];
     to_node_no_arr := [1; 2; 3; 3];
     first_links := [0; 2; 3; 4];
     last_links := [2; 3; 4; 4];
     sorted_link_no_arr := [0; 1; 2; 3];
     allowed_uses_arr := map allowed_uses the_links;
     link_costs := map fftt the_links;
     capi_node_label_cost := replicate 4 MAX;
     capi_node_preds := replicate 4 (-1);
     capi_link_preds := replicate 4 (-1);
     queue_next := replicate 4 0 |}.

Definition network : Network :=
  {| nodes := [ {| zone_id := Some "1" |}; {| zone_id := None |};
                {| zone_id := Some "" |}; {| zone_id := Some "4" |} ];
     links := the_links;
     agents := [];
     node_size := 4;
     link_size := 4;
     map_id_to_no := {[ "1" := 0; "2" := 1; "3" := 2; "4" := 3 ]};
     map_no_to_id := {[ 0 := "1"; 1 := "2"; 2 := "3"; 3 := "4" ]};
     agent_type_name := "a";
     last_thru_node := 4;
     length_unit := "mile";
     capi := arrays |}.

Definition pedestrian : Mode := {| mode_type := "p"; ffs := 3%float; mode_name := "walk" |}.

(** Two networks in one session: a distance query on the first, then the
    same query on a second, freshly loaded network, and the states after
    each. *)
Definition after_first_network : World :=
  snd (single_source_shortest_path "1" "distance" (module_load network)).

Definition after_second_network : World :=
  snd (single_source_shortest_path "1" "distance" (on_network network after_first_network)).

(** Four agents: one that stays where it is, two from node 1, one from
    node 4, from which nothing is reachable. *)
Definition demand : list (string * string) :=
  [("1", "1"); ("1", "4"); ("1", "3"); ("4", "1")].

End Diamond.


(** * Properties *)

Section Properties.
Context `{Externals}.

Lemma check_node_known w node_id n :
  map_id_to_no (net w) !! node_id = Some n ->
  check_node node_id w = (Return tt, w).
Proof. intros E. unfold check_node, bind, read, ret. simpl. now rewrite E. Qed.

Lemma check_node_unknown w node_id :
  map_id_to_no (net w) !! node_id = None ->
  check_node node_id w = (Raise (not_in_network node_id), w).
Proof. intros E. unfold check_node, bind, read, raise. simpl. now rewrite E. Qed.

Lemma bind_return {A B : Type} (m : M A) (k : A -> M B) w a w' :
  m w = (Return a, w') -> bind m k w = k a w'.
Proof. intros E. unfold bind. now rewrite E. Qed.

Lemma read_lift {A : Type} (f : Network -> outcome A) w :
  (G <- read id ;; lift (f G)) w = (f (net w), w).
Proof. reflexivity. Qed.

Lemma bind_raise {A B : Type} (m : M A) (k : A -> M B) w e w' :
  m w = (Raise e, w') -> bind m k w = (Raise e, w').
Proof. intros E. unfold bind. now rewrite E. Qed.

(** What one call of [single_source_shortest_path] does for a known
    origin. *)
Lemma single_source_shortest_path_known w orig cost_type n :
  map_id_to_no (net w) !! orig = Some n ->
  single_source_shortest_path orig cost_type w
  = (Return tt,
     {| net := write_tree (shortest_path_n (engine_args (prepared cost_type w) n 0))
                 (prepared cost_type w);
        _prev_cost_type := cost_type;
        calls := prepared_calls cost_type w ++ [CallEngine n] |}).
Proof.
  intros E.
  unfold single_source_shortest_path, _optimal_label_correcting_CAPI, prepared,
    prepared_calls, get_node_no, dict_getitem, bind, log, update, get_prev_cost_type,
    set_prev_cost_type, read, lift, ret.
  simpl.
  destruct (String.eqb_spec (_prev_cost_type w) cost_type) as [-> | Hne]; simpl;
    rewrite E; reflexivity.
Qed.

Lemma single_source_shortest_path_maps w orig cost_type :
  map_id_to_no (net (snd (single_source_shortest_path orig cost_type w)))
  = map_id_to_no (net w).
Proof.
  unfold single_source_shortest_path, _optimal_label_correcting_CAPI, get_node_no,
    dict_getitem, bind, log, update, get_prev_cost_type, set_prev_cost_type, read,
    lift, ret.
  simpl.
  destruct (String.eqb (_prev_cost_type w) cost_type); simpl;
    destruct (map_id_to_no (net w) !! orig); reflexivity.
Qed.

(** C2: when the origin or the destination is not a key of
    [map_id_to_no], [find_shortest_path] and [get_shortest_path] raise the
    "not in the network" exception for the first missing identifier and
    leave the state as it was: the network, [_prev_cost_type] and the log
    of calls are unchanged, so nothing was allocated, rebuilt or sent to
    the engine, and no path or cost is returned. *)
Theorem unknown_node_raises_before_engine
    fuel w from_node_id to_node_id seq_type cost_type :
  map_id_to_no (net w) !! from_node_id = None \/
  map_id_to_no (net w) !! to_node_id = None ->
  exists node_id,
    (node_id = from_node_id \/ node_id = to_node_id) /\
    map_id_to_no (net w) !! node_id = None /\
    find_shortest_path fuel from_node_id to_node_id seq_type cost_type w
    = (Raise (not_in_network node_id), w) /\
    get_shortest_path from_node_id to_node_id cost_type w
    = (Raise (not_in_network node_id), w).
Proof.
  intros Hmiss.
  destruct (map_id_to_no (net w) !! from_node_id) as [n |] eqn:Efrom.
  - destruct Hmiss as [Hfrom | Hto]; [discriminate |].
    exists to_node_id. split; [now right |]. split; [exact Hto |].
    unfold find_shortest_path, get_shortest_path.
    rewrite !(bind_return _ _ _ _ _ (check_node_known w from_node_id n Efrom)).
    rewrite !(bind_raise _ _ _ _ _ (check_node_unknown w to_node_id Hto)).
    split; reflexivity.
  - exists from_node_id. split; [now left |]. split; [exact Efrom |].
    unfold find_shortest_path, get_shortest_path.
    rewrite !(bind_raise _ _ _ _ _ (check_node_unknown w from_node_id Efrom)).
    split; reflexivity.
Qed.

Lemma get_path_cost_label G to_node_id cost_type m :
  map_id_to_no G !! to_node_id = Some m ->
  get_path_cost G to_node_id cost_type = getitem (node_label_cost G) m.
Proof. intros E. unfold get_path_cost, dict_getitem. now rewrite E. Qed.

(** C3: for known origin and destination, when the label the engine left
    for the destination is at or above [MAX_LABEL_COST], neither query
    raises: [get_shortest_path] returns the literal 9999999 (not the label
    and not the sentinel, whatever their values) and [find_shortest_path]
    returns the "infinity" string with an empty path. *)
Theorem unreachable_destination_is_reported
    fuel w from_node_id to_node_id seq_type cost_type n m label :
  map_id_to_no (net w) !! from_node_id = Some n ->
  map_id_to_no (net w) !! to_node_id = Some m ->
  getitem (node_label_cost (net (snd (single_source_shortest_path from_node_id cost_type w)))) m
  = Return label ->
  PrimFloat.leb MAX_LABEL_COST label = true ->
  get_shortest_path from_node_id to_node_id cost_type w
  = (Return 9999999%float, snd (single_source_shortest_path from_node_id cost_type w)) /\
  find_shortest_path fuel from_node_id to_node_id seq_type cost_type w
  = (Return ("path " +:+ cost_type +:+ ": infinity | path: "),
     snd (single_source_shortest_path from_node_id cost_type w)).
Proof.
  intros Efrom Eto Elabel Hmax.
  pose proof (single_source_shortest_path_maps w from_node_id cost_type) as Hmaps.
  rewrite (single_source_shortest_path_known w _ cost_type n Efrom) in *.
  simpl in *.
  unfold find_shortest_path, get_shortest_path.
  rewrite !(bind_return _ _ _ _ _ (check_node_known w from_node_id n Efrom)).
  rewrite !(bind_return _ _ _ _ _ (check_node_known w to_node_id m Eto)).
  rewrite !(bind_return _ _ _ _ _ (single_source_shortest_path_known w _ cost_type n Efrom)).
  match goal with |- context [bind _ _ ?w1] => set (w' := w1) in * end.
  assert (Ecost : (G <- read id ;; lift (get_path_cost G to_node_id cost_type)) w'
                  = (Return label, w')).
  { rewrite read_lift, (get_path_cost_label _ _ _ m); [now rewrite <- Elabel |].
    subst w'. simpl. now rewrite Hmaps. }
  rewrite !(bind_return _ _ _ _ _ Ecost), Hmax. split; reflexivity.
Qed.

(** For every known origin the tree function returns [None]. *)
Lemma get_shortest_path_tree_is_None w from_node_id seq_type cost_type integer_node_id n :
  map_id_to_no (net w) !! from_node_id = Some n ->
  get_shortest_path_tree from_node_id seq_type cost_type integer_node_id w
  = (Return None, snd (single_source_shortest_path from_node_id cost_type w)).
Proof.
  intros Efrom. unfold get_shortest_path_tree.
  rewrite (bind_return _ _ _ _ _ (check_node_known w from_node_id n Efrom)).
  rewrite (bind_return _ _ _ _ _
             (single_source_shortest_path_known w _ cost_type n Efrom)).
  now rewrite (single_source_shortest_path_known w _ cost_type n Efrom).
Qed.

Lemma getitem_nonneg {A : Type} (l : list A) i :
  0 <= i -> getitem l i = match l !! Z.to_nat i with
                          | Some x => Return x
                          | None => Raise IndexError
                          end.
Proof.
  intros Hi. unfold getitem.
  destruct (Z.leb_spec 0 i) as [_ | Hlt]; [| lia].
  destruct (Z.ltb_spec i 0) as [Hlt | _]; [lia | reflexivity].
Qed.

(** C6: on a tree in which the origin has no predecessor node and no
    predecessor link (any negative entry), [output_path_sequence] for the
    origin itself returns without an exception: the one-element sequence
    of the origin's identifier when [type] starts with "node", the empty
    sequence otherwise.  One unit of fuel pays for the single pass of the
    [while] loop of the node mode. *)
Theorem output_path_sequence_at_origin fuel G origin_node_id n p l type :
  map_id_to_no G !! origin_node_id = Some n ->
  0 <= n ->
  map_no_to_id G !! n = Some origin_node_id ->
  getitem (node_preds G) n = Return p -> p < 0 ->
  getitem (link_preds G) n = Return l -> l < 0 ->
  (1 <= fuel)%nat ->
  output_path_sequence fuel G origin_node_id type
  = Return (if startswith type "node" then [origin_node_id] else []).
Proof.
  intros Eno Hn Eid Enode Hp Elink Hl Hfuel.
  unfold output_path_sequence, dict_getitem. rewrite Eno.
  destruct (startswith type "node").
  - destruct fuel as [| fuel]; [lia |].
    simpl. destruct (Z.leb_spec 0 n) as [_ | Hlt]; [| lia].
    rewrite Enode.
    destruct fuel; simpl; (destruct (Z.leb_spec 0 p) as [Hge | _]; [lia |]);
      simpl; rewrite Eid; reflexivity.
  - rewrite Elink.
    destruct fuel; simpl; (destruct (Z.leb_spec 0 l) as [Hge | _]; [lia |]);
      reflexivity.
Qed.

(** *** The cost-selector cache *)

Lemma set_capi_id G : set_capi (capi G) G = G.
Proof. now destruct G. Qed.

Lemma set_agents_id G : set_agents (agents G) G = G.
Proof. now destruct G. Qed.

Lemma prepared_links cost_type w : links (prepared cost_type w) = links (net w).
Proof. unfold prepared. now destruct (String.eqb _ _). Qed.

Lemma prepared_maps cost_type w :
  map_id_to_no (prepared cost_type w) = map_id_to_no (net w).
Proof. unfold prepared. now destruct (String.eqb _ _). Qed.

Lemma prepared_agents cost_type w : agents (prepared cost_type w) = agents (net w).
Proof. unfold prepared. now destruct (String.eqb _ _). Qed.

Lemma prepared_node_size cost_type w :
  node_size (prepared cost_type w) = node_size (net w).
Proof. unfold prepared. now destruct (String.eqb _ _). Qed.

Lemma prepared_same cost_type w :
  allocated (net w) -> _prev_cost_type w = cost_type -> prepared cost_type w = net w.
Proof.
  intros Ha <-. unfold prepared. rewrite String.eqb_refl, Ha. apply set_capi_id.
Qed.

Lemma prepared_switch cost_type w :
  allocated (net w) -> _prev_cost_type w <> cost_type ->
  prepared cost_type w = set_link_costs (init_link_costs (links (net w)) cost_type) (net w).
Proof.
  intros Ha Hne. unfold prepared, allocated in *. cbv zeta.
  rewrite !Ha, !set_capi_id.
  now destruct (String.eqb_spec (_prev_cost_type w) cost_type).
Qed.

Lemma prepared_allocated `{!AllocatesOnce} cost_type w : allocated (prepared cost_type w).
Proof.
  unfold prepared. destruct (String.eqb _ _).
  - apply allocate_once.
  - apply allocated_link_costs, allocate_once.
Qed.

Lemma prepared_link_costs cost_type w :
  costs_current w ->
  link_costs (capi (prepared cost_type w)) = init_link_costs (links (net w)) cost_type.
Proof.
  intros Hc. unfold prepared.
  destruct (String.eqb_spec (_prev_cost_type w) cost_type) as [<- | Hne];
    [exact Hc | reflexivity].
Qed.

Lemma prepared_calls_spec cost_type w :
  prepared_calls cost_type w
  = calls w ++ CallAllocate ::
      (if String.eqb (_prev_cost_type w) cost_type then []
       else [CallInitLinkCosts cost_type]).
Proof.
  unfold prepared_calls. destruct (String.eqb _ _); [reflexivity |].
  now rewrite <- app_assoc.
Qed.

(** C4 (as amended): [single_source_shortest_path] calls [init_link_costs]
    exactly when the requested selector differs from the module-level
    [_prev_cost_type] ("time" at module load, afterwards the selector of
    the latest call), and leaves [_prev_cost_type] at the requested
    selector; when the network's cost array agreed with [_prev_cost_type]
    before the call, the array the engine is invoked on is the one of the
    requested selector, and the agreement holds again after the call. *)
Theorem cost_array_follows_prev_cost_type `{!AllocatesOnce} w orig_node_id cost_type n :
  map_id_to_no (net w) !! orig_node_id = Some n ->
  calls (snd (single_source_shortest_path orig_node_id cost_type w))
  = calls w ++ CallAllocate ::
      (if String.eqb (_prev_cost_type w) cost_type then []
       else [CallInitLinkCosts cost_type]) ++ [CallEngine n] /\
  _prev_cost_type (snd (single_source_shortest_path orig_node_id cost_type w)) = cost_type /\
  (costs_current w ->
   link_costs (capi (prepared cost_type w)) = init_link_costs (links (net w)) cost_type /\
   link_costs (capi (net (snd (single_source_shortest_path orig_node_id cost_type w))))
   = init_link_costs (links (net w)) cost_type /\
   costs_current (snd (single_source_shortest_path orig_node_id cost_type w))).
Proof.
  intros E. rewrite (single_source_shortest_path_known w _ cost_type n E). simpl.
  split; [| split; [reflexivity |]].
  - rewrite prepared_calls_spec, <- app_assoc. reflexivity.
  - intros Hc. pose proof (prepared_link_costs cost_type w Hc) as Hl.
    split; [exact Hl |]. split; [exact Hl |].
    unfold costs_current. simpl.
    rewrite (allocated_tree _ _ (prepared_allocated cost_type w)). simpl.
    now rewrite prepared_links.
Qed.

(** C9: on an unchanged network whose cost array agrees with
    [_prev_cost_type], the tree of a run from an origin under "time" is
    found again, labels and both predecessor arrays, by a run from the
    same origin under "time" that follows a run under "distance". *)
Theorem selector_switch_reproduces_time_tree `{!AllocatesOnce} w orig_node_id n :
  map_id_to_no (net w) !! orig_node_id = Some n ->
  costs_current w ->
  let w1 := snd (single_source_shortest_path orig_node_id "time" w) in
  let w2 := snd (single_source_shortest_path orig_node_id "distance" w1) in
  let w3 := snd (single_source_shortest_path orig_node_id "time" w2) in
  node_label_cost (net w3) = node_label_cost (net w1) /\
  node_preds (net w3) = node_preds (net w1) /\
  link_preds (net w3) = link_preds (net w1).
Proof.
  intros E Hc w1 w2 w3.
  pose proof (prepared_allocated "time" w) as Ha.
  pose proof (prepared_link_costs "time" w Hc) as Hl.
  assert (E1 : map_id_to_no (net w1) !! orig_node_id = Some n).
  { subst w1. now rewrite single_source_shortest_path_maps. }
  assert (E2 : map_id_to_no (net w2) !! orig_node_id = Some n).
  { subst w2. now rewrite single_source_shortest_path_maps. }
  subst w3 w2.
  rewrite (single_source_shortest_path_known _ _ "time" n E2).
  rewrite (single_source_shortest_path_known w1 _ "distance" n E1) in *.
  subst w1.
  rewrite (single_source_shortest_path_known w _ "time" n E) in *.
  cbn [snd net] in *.
  set (P := prepared "time" w) in *.
  set (T1 := shortest_path_n (engine_args P n 0)).
  match goal with |- context [prepared "distance" ?w] => set (wa := w) end.
  assert (Hwa : prepared "distance" wa
                = set_link_costs (init_link_costs (links (net wa)) "distance") (net wa)).
  { apply prepared_switch; [apply allocated_tree, Ha | discriminate]. }
  rewrite Hwa. subst wa. cbn [net links].
  match goal with |- context [prepared "time" ?w] => set (wb := w) end.
  assert (Hwb : prepared "time" wb
                = set_link_costs (init_link_costs (links (net wb)) "time") (net wb)).
  { apply prepared_switch; [| discriminate].
    subst wb. cbn [net]. apply allocated_tree, allocated_link_costs, allocated_tree, Ha. }
  rewrite Hwb. subst wb. cbn [net].
  assert (Hargs :
    engine_args
      (set_link_costs
         (init_link_costs
            (links (write_tree
                      (shortest_path_n
                         (engine_args
                            (set_link_costs (init_link_costs (links (write_tree T1 P)) "distance")
                               (write_tree T1 P)) n 0))
                      (set_link_costs (init_link_costs (links (write_tree T1 P)) "distance")
                         (write_tree T1 P)))) "time")
         (write_tree
            (shortest_path_n
               (engine_args
                  (set_link_costs (init_link_costs (links (write_tree T1 P)) "distance")
                     (write_tree T1 P)) n 0))
            (set_link_costs (init_link_costs (links (write_tree T1 P)) "distance")
               (write_tree T1 P)))) n 0
    = engine_args P n 0).
  { unfold engine_args. cbn. f_equal. subst P. rewrite prepared_links. now rewrite Hl. }
  rewrite Hargs. repeat split.
Qed.

(** *** Mode-specific link times *)

Lemma set_links_id G : set_links (links G) G = G.
Proof. now destruct G. Qed.

Lemma with_links_id w : with_links (links (net w)) w = w.
Proof. unfold with_links. rewrite set_links_id. now destruct w. Qed.

Lemma get_link_at w i l :
  0 <= i -> links (net w) !! Z.to_nat i = Some l -> get_link i w = (Return l, w).
Proof.
  intros Hi E. unfold get_link. rewrite read_lift, getitem_nonneg by exact Hi.
  now rewrite E.
Qed.

Lemma assign_fftt_at w i l x :
  0 <= i -> links (net w) !! Z.to_nat i = Some l ->
  assign_fftt i x w
  = (Return tt, with_links (<[Z.to_nat i := set_fftt x l]> (links (net w))) w).
Proof.
  intros Hi E. unfold assign_fftt.
  rewrite (bind_return _ _ _ _ _ (get_link_at w i l Hi E)). reflexivity.
Qed.

Lemma convert_walk_at mode w i l :
  PrimFloat.eqb (ffs mode) 0 = false ->
  0 <= i -> links (net w) !! Z.to_nat i = Some l ->
  convert_walk mode i w
  = (Return tt,
     with_links (<[Z.to_nat i := set_fftt (link_length l * 5280 / ffs mode / 60)%float l]>
                   (links (net w))) w).
Proof.
  intros Hffs Hi E. unfold convert_walk.
  rewrite (bind_return _ _ _ _ _ (get_link_at w i l Hi E)).
  unfold walk_time, py_div. rewrite Hffs.
  unfold bind at 1. unfold lift at 1.
  apply assign_fftt_at; assumption.
Qed.

Lemma convert_walk_on_pedestrian_links_at mode w i l :
  PrimFloat.eqb (ffs mode) 0 = false ->
  0 <= i -> links (net w) !! Z.to_nat i = Some l ->
  convert_walk_on_pedestrian_links mode i w
  = (Return tt,
     with_links (<[Z.to_nat i := if str_contains "p" (allowed_uses l)
                                then set_fftt (link_length l * 5280 / ffs mode / 60)%float l
                                else l]> (links (net w))) w).
Proof.
  intros Hffs Hi E. unfold convert_walk_on_pedestrian_links.
  rewrite (bind_return _ _ _ _ _ (get_link_at w i l Hi E)).
  destruct (str_contains "p" (allowed_uses l)).
  - apply convert_walk_at; assumption.
  - rewrite list_insert_id by exact E. now rewrite with_links_id.
Qed.

Lemma convert_bike_at mode w i l :
  PrimFloat.eqb (ffs mode) 0 = false ->
  0 <= i -> links (net w) !! Z.to_nat i = Some l ->
  convert_bike mode i w
  = (Return tt,
     with_links (<[Z.to_nat i := set_fftt (link_length l / ffs mode * 60)%float l]>
                   (links (net w))) w).
Proof.
  intros Hffs Hi E. unfold convert_bike.
  rewrite (bind_return _ _ _ _ _ (get_link_at w i l Hi E)).
  unfold bike_time, py_div. rewrite Hffs.
  unfold bind at 1. unfold lift at 1.
  apply assign_fftt_at; assumption.
Qed.

(** A loop over the link positions that rewrites the link at each
    position rewrites the whole list. *)
Lemma for_each_link (body : Z -> M unit) (g : Link -> Link) :
  (forall w i l, 0 <= i -> links (net w) !! Z.to_nat i = Some l ->
     body i w = (Return tt, with_links (<[Z.to_nat i := g l]> (links (net w))) w)) ->
  forall todo done w,
    links (net w) = done ++ todo ->
    for_each body (seqZ (Z.of_nat (length done)) (Z.of_nat (length todo))) w
    = (Return tt, with_links (done ++ map g todo) w).
Proof.
  intros Hbody todo. induction todo as [| l todo IH]; intros done w Hl.
  - simpl. rewrite <- Hl, with_links_id. reflexivity.
  - assert (Hseq : seqZ (Z.of_nat (length done)) (Z.of_nat (length (l :: todo)))
                   = Z.of_nat (length done)
                     :: seqZ (Z.of_nat (length (done ++ [g l]))) (Z.of_nat (length todo))).
    { rewrite seqZ_cons by (simpl; lia). f_equal. f_equal.
      - rewrite length_app. simpl. lia.
      - simpl. lia. }
    rewrite Hseq. simpl for_each.
    assert (Hat : links (net w) !! Z.to_nat (Z.of_nat (length done)) = Some l).
    { rewrite Hl, Nat2Z.id, lookup_app_r by lia. now rewrite Nat.sub_diag. }
    rewrite (bind_return _ _ _ _ _
               (Hbody w (Z.of_nat (length done)) l (Nat2Z.is_nonneg _) Hat)).
    rewrite (IH (done ++ [g l])).
    + unfold with_links. simpl. now rewrite <- app_assoc.
    + simpl. rewrite Hl, Nat2Z.id.
      replace (length done) with (length done + 0)%nat at 1 by lia.
      rewrite insert_app_r. simpl. now rewrite <- app_assoc.
Qed.

Lemma for_range_links (body : Z -> M unit) (g : Link -> Link) w :
  (forall w i l, 0 <= i -> links (net w) !! Z.to_nat i = Some l ->
     body i w = (Return tt, with_links (<[Z.to_nat i := g l]> (links (net w))) w)) ->
  link_size (net w) = Z.of_nat (length (links (net w))) ->
  for_range (link_size (net w)) body w = (Return tt, with_links (map g (links (net w))) w).
Proof.
  intros Hbody Hsize. unfold for_range. rewrite Hsize.
  apply (for_each_link body g Hbody (links (net w)) [] w). reflexivity.
Qed.

Lemma single_source_shortest_path_links w orig cost_type :
  links (net (snd (single_source_shortest_path orig cost_type w))) = links (net w).
Proof.
  unfold single_source_shortest_path, _optimal_label_correcting_CAPI, get_node_no,
    dict_getitem, bind, log, update, get_prev_cost_type, set_prev_cost_type, read,
    lift, ret.
  simpl.
  destruct (String.eqb (_prev_cost_type w) cost_type); simpl;
    destruct (map_id_to_no (net w) !! orig); reflexivity.
Qed.

(** A one-to-one cost query between known nodes, in one equation. *)
Lemma get_shortest_path_known w from_node_id to_node_id cost_type n m :
  map_id_to_no (net w) !! from_node_id = Some n ->
  map_id_to_no (net w) !! to_node_id = Some m ->
  get_shortest_path from_node_id to_node_id cost_type w
  = (match getitem (node_label_cost
                      (net (snd (single_source_shortest_path from_node_id cost_type w)))) m with
     | Return x => Return (if PrimFloat.leb MAX_LABEL_COST x then NO_PATH_COST else x)
     | Raise e => Raise e
     end,
     snd (single_source_shortest_path from_node_id cost_type w)).
Proof.
  intros Efrom Eto.
  pose proof (single_source_shortest_path_maps w from_node_id cost_type) as Hmaps.
  unfold get_shortest_path.
  rewrite (bind_return _ _ _ _ _ (check_node_known w from_node_id n Efrom)).
  rewrite (bind_return _ _ _ _ _ (check_node_known w to_node_id m Eto)).
  rewrite (bind_return _ _ _ _ _
             (single_source_shortest_path_known w _ cost_type n Efrom)).
  rewrite (single_source_shortest_path_known w _ cost_type n Efrom) in *.
  cbn [snd] in *.
  match goal with |- context [bind _ _ ?w1] => set (w' := w1) in * end.
  unfold bind at 1.
  rewrite read_lift, (get_path_cost_label _ _ _ m) by (rewrite Hmaps; exact Eto).
  destruct (getitem (node_label_cost (net w')) m) as [x | e]; [| reflexivity].
  now destruct (PrimFloat.leb MAX_LABEL_COST x).
Qed.

Lemma get_shortest_path_unknown w from_node_id to_node_id cost_type :
  map_id_to_no (net w) !! from_node_id = None \/
  map_id_to_no (net w) !! to_node_id = None ->
  exists e, get_shortest_path from_node_id to_node_id cost_type w = (Raise e, w).
Proof.
  intros Hmiss. unfold get_shortest_path.
  destruct (map_id_to_no (net w) !! from_node_id) as [n |] eqn:Efrom.
  - destruct Hmiss as [? | Hto]; [discriminate |].
    rewrite (bind_return _ _ _ _ _ (check_node_known w from_node_id n Efrom)).
    rewrite (bind_raise _ _ _ _ _ (check_node_unknown w to_node_id Hto)). eauto.
  - rewrite (bind_raise _ _ _ _ _ (check_node_unknown w from_node_id Efrom)). eauto.
Qed.

Lemma get_shortest_path_links w from_node_id to_node_id cost_type :
  links (net (snd (get_shortest_path from_node_id to_node_id cost_type w)))
  = links (net w).
Proof.
  destruct (map_id_to_no (net w) !! from_node_id) as [n |] eqn:Efrom;
    [destruct (map_id_to_no (net w) !! to_node_id) as [m |] eqn:Eto |].
  - rewrite (get_shortest_path_known w _ _ cost_type n m Efrom Eto). simpl.
    apply single_source_shortest_path_links.
  - destruct (get_shortest_path_unknown w from_node_id to_node_id cost_type) as [e ->];
      [now right | reflexivity].
  - destruct (get_shortest_path_unknown w from_node_id to_node_id cost_type) as [e ->];
      [now left | reflexivity].
Qed.

Lemma mapM_cons {A B : Type} (f : A -> M B) x l w :
  mapM f (x :: l) w
  = match f x w with
    | (Return y, w1) =>
        match mapM f l w1 with
        | (Return ys, w2) => (Return (y :: ys), w2)
        | (Raise e, w2) => (Raise e, w2)
        end
    | (Raise e, w1) => (Raise e, w1)
    end.
Proof. reflexivity. Qed.

Lemma mapM_invariant {A B : Type} (P : World -> Prop) (f : A -> M B) l :
  (forall x w, P w -> P (snd (f x w))) ->
  forall w, P w -> P (snd (mapM f l w)).
Proof.
  intros Hf. induction l as [| x l IH]; intros w Hw; [exact Hw |].
  simpl. unfold bind at 1. specialize (Hf x w Hw).
  destruct (f x w) as [[y | e] w1]; [| exact Hf].
  unfold bind at 1. specialize (IH w1 Hf).
  destruct (mapM f l w1) as [[ys | e] w2]; exact IH.
Qed.

Lemma compute_row_distances_links w row_node row_nodes cost_type :
  links (net (snd (compute_row_distances row_node row_nodes cost_type w)))
  = links (net w).
Proof.
  apply (mapM_invariant (fun w' => links (net w') = links (net w))); [| reflexivity].
  intros x w' Hw'. now rewrite get_shortest_path_links.
Qed.

(** C7: with a supported output type, a link count that is the length of
    the link list and a non-zero [mode.ffs], [find_shortest_path_network]
    first rewrites the free-flow times, in one pass over the links and
    according to [mode.type]: "p" gives every link
    [(length * 5280) / ffs / 60], "t" gives that to the links whose
    [allowed_uses] contain "p" and leaves the others, "b" gives every link
    [length / ffs * 60]; only then does it run the matrix computation, on
    the state with the rewritten links, and no row of that computation
    changes the links again. *)
Theorem mode_times_set_before_matrix
    w output_dir output_type cost_type mode row_nodes :
  output_type = ".omx" \/ output_type = ".csv" ->
  centroid_ids (net w) = Return row_nodes ->
  link_size (net w) = Z.of_nat (length (links (net w))) ->
  PrimFloat.eqb (ffs mode) 0 = false ->
  exists converted,
    (mode_type mode = "p" ->
     converted = map (fun l => set_fftt (link_length l * 5280 / ffs mode / 60)%float l)
                   (links (net w))) /\
    (mode_type mode = "t" ->
     converted = map (fun l => if str_contains "p" (allowed_uses l)
                               then set_fftt (link_length l * 5280 / ffs mode / 60)%float l
                               else l)
                   (links (net w))) /\
    (mode_type mode = "b" ->
     converted = map (fun l => set_fftt (link_length l / ffs mode * 60)%float l)
                   (links (net w))) /\
    apply_mode mode w = (Return tt, with_links converted w) /\
    find_shortest_path_network output_dir output_type cost_type mode w
    = export_skim output_dir output_type cost_type mode row_nodes (with_links converted w) /\
    (forall row_node w',
       links (net (snd (compute_row_distances row_node row_nodes cost_type w')))
       = links (net w')) /\
    links (net (snd (create_numpy_matrix_parallel row_nodes cost_type
                       (with_links converted w)))) = converted.
Proof.
  intros Hty Hrows Hsize Hffs.
  assert (Hmode : exists converted,
    (mode_type mode = "p" ->
     converted = map (fun l => set_fftt (link_length l * 5280 / ffs mode / 60)%float l)
                   (links (net w))) /\
    (mode_type mode = "t" ->
     converted = map (fun l => if str_contains "p" (allowed_uses l)
                               then set_fftt (link_length l * 5280 / ffs mode / 60)%float l
                               else l)
                   (links (net w))) /\
    (mode_type mode = "b" ->
     converted = map (fun l => set_fftt (link_length l / ffs mode * 60)%float l)
                   (links (net w))) /\
    apply_mode mode w = (Return tt, with_links converted w)).
  { unfold apply_mode. unfold bind at 1. unfold read at 1. cbn [id net].
    destruct (String.eqb_spec (mode_type mode) "p") as [Ep | Np].
    - eexists. split; [reflexivity |]. rewrite Ep.
      split; [discriminate |]. split; [discriminate |].
      rewrite (bind_return _ _ _ _ _
                 (for_range_links _ _ w
                    (fun w i l => convert_walk_at mode w i l Hffs) Hsize)).
      reflexivity.
    - unfold bind at 1, ret at 1.
      destruct (String.eqb_spec (mode_type mode) "t") as [Et | Nt];
        [| destruct (String.eqb_spec (mode_type mode) "b") as [Eb | Nb]].
      + eexists. split; [congruence |]. split; [reflexivity |]. rewrite Et.
        split; [discriminate |].
        apply (for_range_links _ _ w
                 (fun w i l => convert_walk_on_pedestrian_links_at mode w i l Hffs) Hsize).
      + eexists. split; [congruence |]. split; [congruence |]. split; [reflexivity |].
        apply (for_range_links _ _ w (fun w i l => convert_bike_at mode w i l Hffs) Hsize).
      + exists (links (net w)). repeat (split; [congruence |]).
        now rewrite with_links_id. }
  destruct Hmode as (converted & Hp & Ht & Hb & Happly).
  exists converted. repeat (split; [assumption |]).
  split; [| split].
  - unfold find_shortest_path_network.
    assert (Hvalid : String.eqb output_type ".omx" || String.eqb output_type ".csv" = true).
    { destruct Hty as [-> | ->]; reflexivity. }
    rewrite Hvalid. unfold bind at 1, ret at 1. unfold bind at 1.
    rewrite read_lift, Hrows.
    now rewrite (bind_return _ _ _ _ _ Happly).
  - intros row_node w'. apply compute_row_distances_links.
  - unfold create_numpy_matrix_parallel.
    apply (mapM_invariant (fun w' => links (net w') = converted)); [| reflexivity].
    intros x w' Hw'. now rewrite compute_row_distances_links.
Qed.

(** *** The skim matrix *)

Lemma get_shortest_path_unknown_from w from_node_id to_node_id cost_type :
  map_id_to_no (net w) !! from_node_id = None ->
  get_shortest_path from_node_id to_node_id cost_type w
  = (Raise (not_in_network from_node_id), w).
Proof.
  intros Efrom. unfold get_shortest_path.
  now rewrite (bind_raise _ _ _ _ _ (check_node_unknown w from_node_id Efrom)).
Qed.

Lemma get_shortest_path_unknown_to w from_node_id to_node_id cost_type n :
  map_id_to_no (net w) !! from_node_id = Some n ->
  map_id_to_no (net w) !! to_node_id = None ->
  get_shortest_path from_node_id to_node_id cost_type w
  = (Raise (not_in_network to_node_id), w).
Proof.
  intros Efrom Eto. unfold get_shortest_path.
  rewrite (bind_return _ _ _ _ _ (check_node_known w from_node_id n Efrom)).
  now rewrite (bind_raise _ _ _ _ _ (check_node_unknown w to_node_id Eto)).
Qed.

Lemma aligned_maps cost_type w0 w :
  aligned cost_type w0 w -> map_id_to_no (net w) = map_id_to_no (net w0).
Proof. intros (_ & t & ->). simpl. apply prepared_maps. Qed.

Lemma aligned_first `{!AllocatesOnce} cost_type w0 orig n :
  map_id_to_no (net w0) !! orig = Some n ->
  aligned cost_type w0 (snd (single_source_shortest_path orig cost_type w0)).
Proof.
  intros E. rewrite (single_source_shortest_path_known w0 _ cost_type n E).
  split; [reflexivity |]. simpl. eauto.
Qed.

(** Once a query under [cost_type] has run, a further run from an origin
    leaves the network as a run from the initial state does. *)
Lemma aligned_next `{!AllocatesOnce} cost_type w0 w orig n :
  aligned cost_type w0 w ->
  map_id_to_no (net w0) !! orig = Some n ->
  net (snd (single_source_shortest_path orig cost_type w))
  = net (snd (single_source_shortest_path orig cost_type w0)) /\
  aligned cost_type w0 (snd (single_source_shortest_path orig cost_type w)).
Proof.
  intros Hal E. pose proof (aligned_maps _ _ _ Hal) as Hmaps.
  destruct Hal as (Hprev & t & Hnet).
  assert (Ha : allocated (net w)).
  { rewrite Hnet. apply allocated_tree, prepared_allocated. }
  assert (E' : map_id_to_no (net w) !! orig = Some n) by now rewrite Hmaps.
  rewrite (single_source_shortest_path_known w _ cost_type n E').
  rewrite (single_source_shortest_path_known w0 _ cost_type n E).
  rewrite (prepared_same cost_type w Ha Hprev), Hnet. simpl.
  split; [reflexivity |]. split; [reflexivity |]. simpl. eauto.
Qed.

Lemma get_shortest_path_aligned `{!AllocatesOnce} cost_type w0 w from_node_id to_node_id :
  w = w0 \/ aligned cost_type w0 w ->
  fst (get_shortest_path from_node_id to_node_id cost_type w)
  = fst (get_shortest_path from_node_id to_node_id cost_type w0) /\
  (snd (get_shortest_path from_node_id to_node_id cost_type w) = w0 \/
   aligned cost_type w0 (snd (get_shortest_path from_node_id to_node_id cost_type w))).
Proof.
  intros Hw.
  assert (Hmaps : map_id_to_no (net w) = map_id_to_no (net w0)).
  { destruct Hw as [-> | Hal]; [reflexivity | exact (aligned_maps _ _ _ Hal)]. }
  destruct (map_id_to_no (net w0) !! from_node_id) as [n |] eqn:Efrom;
    [destruct (map_id_to_no (net w0) !! to_node_id) as [m |] eqn:Eto |].
  - rewrite (get_shortest_path_known w _ _ cost_type n m) by (now rewrite Hmaps).
    rewrite (get_shortest_path_known w0 _ _ cost_type n m Efrom Eto). simpl.
    destruct Hw as [-> | Hal].
    + split; [reflexivity |]. right. now apply (aligned_first _ _ _ n).
    + destruct (aligned_next cost_type w0 w from_node_id n Hal Efrom) as [-> Hal'].
      split; [reflexivity |]. now right.
  - rewrite (get_shortest_path_unknown_to w _ _ cost_type n) by (now rewrite Hmaps).
    rewrite (get_shortest_path_unknown_to w0 _ _ cost_type n Efrom Eto). simpl.
    split; [reflexivity |]. destruct Hw as [-> | Hal]; [now left | now right].
  - rewrite (get_shortest_path_unknown_from w) by (now rewrite Hmaps).
    rewrite (get_shortest_path_unknown_from w0 _ _ _ Efrom). simpl.
    split; [reflexivity |]. destruct Hw as [-> | Hal]; [now left | now right].
Qed.

Lemma mapM_returns {A B : Type} (J : World -> Prop) (f : A -> M B) (g : A -> B) l :
  (forall x w, x ∈ l -> J w -> fst (f x w) = Return (g x) /\ J (snd (f x w))) ->
  forall w, J w -> fst (mapM f l w) = Return (map g l) /\ J (snd (mapM f l w)).
Proof.
  induction l as [| x l IH]; intros Hf w Hw; [now split |].
  rewrite mapM_cons.
  destruct (Hf x w ltac:(left) Hw) as [Hx Hw1].
  destruct (f x w) as [r w1]. simpl in Hx, Hw1. subst r.
  destruct (IH (fun y w' Hy => Hf y w' ltac:(now right)) w1 Hw1) as [Hl Hw2].
  destruct (mapM f l w1) as [r w2]. simpl in Hl, Hw2. subst r.
  split; [reflexivity | exact Hw2].
Qed.

(** C8: when each one-to-one query between two row nodes returns from the
    state the matrix computation starts in, the computation returns a
    matrix with one row per row node, whose entry (i, j) is the value
    [get_shortest_path] returns for row node i and row node j from that
    state; with an engine that labels its origin zero, node numbers
    within the node count and a sentinel above zero, every diagonal entry
    is the float zero. *)
Theorem skim_matrix_entries `{!AllocatesOnce} `{!OriginLabelZero} w row_nodes cost_type :
  (forall ri rj, ri ∈ row_nodes -> rj ∈ row_nodes ->
     exists x, fst (get_shortest_path ri rj cost_type w) = Return x) ->
  (forall r n, r ∈ row_nodes -> map_id_to_no (net w) !! r = Some n ->
     0 <= n < node_size (net w)) ->
  PrimFloat.leb MAX_LABEL_COST 0 = false ->
  exists matrix,
    fst (create_numpy_matrix_parallel row_nodes cost_type w) = Return matrix /\
    length matrix = length row_nodes /\
    (forall i j ri rj, row_nodes !! i = Some ri -> row_nodes !! j = Some rj ->
       exists row x, matrix !! i = Some row /\ row !! j = Some x /\
                     fst (get_shortest_path ri rj cost_type w) = Return x) /\
    (forall i ri, row_nodes !! i = Some ri ->
       exists row, matrix !! i = Some row /\ row !! i = Some 0%float).
Proof.
  intros Hret Hrange Hmax.
  set (J := fun w' => w' = w \/ aligned cost_type w w').
  set (cost := fun ri rj => value_of (fst (get_shortest_path ri rj cost_type w))).
  assert (Hrow : forall ri w', ri ∈ row_nodes -> J w' ->
            fst (compute_row_distances ri row_nodes cost_type w')
            = Return (map (cost ri) row_nodes) /\
            J (snd (compute_row_distances ri row_nodes cost_type w'))).
  { intros ri w' Hri Hw'. unfold compute_row_distances.
    apply (mapM_returns J); [| exact Hw'].
    intros rj w'' Hrj Hw''.
    destruct (get_shortest_path_aligned cost_type w w'' ri rj Hw'') as [-> HJ].
    split; [| exact HJ]. unfold cost.
    destruct (Hret ri rj Hri Hrj) as [x ->]. reflexivity. }
  destruct (mapM_returns J (fun ri => compute_row_distances ri row_nodes cost_type)
              (fun ri => map (cost ri) row_nodes) row_nodes Hrow w) as [Hm _];
    [now left |].
  exists (map (fun ri => map (cost ri) row_nodes) row_nodes).
  assert (Hentry : forall i j ri rj,
            row_nodes !! i = Some ri -> row_nodes !! j = Some rj ->
            exists row x,
              map (fun ri => map (cost ri) row_nodes) row_nodes !! i = Some row /\
              row !! j = Some x /\
              fst (get_shortest_path ri rj cost_type w) = Return x /\
              row = map (cost ri) row_nodes /\ x = cost ri rj).
  { intros i j ri rj Hi Hj. exists (map (cost ri) row_nodes), (cost ri rj).
    rewrite !list_lookup_fmap, Hi. simpl. rewrite Hj. simpl.
    repeat split. unfold cost.
    destruct (Hret ri rj) as [x ->]; [eapply list_elem_of_lookup_2; eauto .. |].
    reflexivity. }
  split; [exact Hm |]. split; [apply length_map |]. split.
  - intros i j ri rj Hi Hj.
    destruct (Hentry i j ri rj Hi Hj) as (row & x & ? & ? & ? & _). eauto.
  - intros i ri Hi.
    destruct (Hentry i i ri ri Hi Hi) as (row & x & Hrowi & Hx & Hq & _ & _).
    exists row. split; [exact Hrowi |]. rewrite Hx. f_equal.
    assert (Hin : ri ∈ row_nodes) by (eapply list_elem_of_lookup_2; eauto).
    destruct (map_id_to_no (net w) !! ri) as [n |] eqn:Eri.
    + rewrite (get_shortest_path_known w _ _ cost_type n n Eri Eri) in Hq.
      rewrite (single_source_shortest_path_known w _ cost_type n Eri) in Hq.
      simpl in Hq.
      pose proof (origin_label_zero (engine_args (prepared cost_type w) n 0)) as Hzero.
      simpl in Hzero. rewrite prepared_node_size in Hzero.
      unfold node_label_cost in Hq. simpl in Hq.
      rewrite Hzero in Hq by (now apply (Hrange ri)).
      rewrite Hmax in Hq. now injection Hq.
    + rewrite (get_shortest_path_unknown_from w _ _ _ Eri) in Hq. discriminate.
Qed.

(** *** The agent loop *)

Lemma single_source_shortest_path_agents w orig cost_type :
  agents (net (snd (single_source_shortest_path orig cost_type w))) = agents (net w).
Proof.
  unfold single_source_shortest_path, _optimal_label_correcting_CAPI, get_node_no,
    dict_getitem, bind, log, update, get_prev_cost_type, set_prev_cost_type, read,
    lift, ret.
  simpl.
  destruct (String.eqb (_prev_cost_type w) cost_type); simpl;
    destruct (map_id_to_no (net w) !! orig); reflexivity.
Qed.

Lemma with_agents_id w : with_agents (agents (net w)) w = w.
Proof. unfold with_agents. rewrite set_agents_id. now destruct w. Qed.

Lemma set_up_path_alter fuel i to_node_id w :
  exists f, (forall a, od (f a) = od a) /\
    snd (set_up_path fuel i to_node_id w) = with_agents (alter f i (agents (net w))) w.
Proof.
  assert (Hid : exists f, (forall a, od (f a) = od a) /\
                  w = with_agents (alter f i (agents (net w))) w).
  { exists id. split; [reflexivity |].
    rewrite list_alter_id by reflexivity. now rewrite with_agents_id. }
  unfold set_up_path. unfold bind at 1. rewrite read_lift.
  destruct (dict_getitem (map_id_to_no (net w)) to_node_id) as [curr |]; [| exact Hid].
  unfold bind at 1. rewrite read_lift.
  destruct (getitem (node_label_cost (net w)) curr) as [label |]; [| exact Hid].
  unfold bind at 1. unfold modify_agent at 1, update at 1.
  match goal with |- context [bind _ _ ?w1] => set (w' := w1) end.
  assert (Hw' : w' = with_agents (alter (set_path_cost label) i (agents (net w))) w)
    by reflexivity.
  unfold bind at 1. rewrite read_lift.
  destruct (retrieve_sequence fuel (net w') curr [] []) as [[np lp] |].
  - simpl. destruct lp as [| l lp].
    + exists (set_path_cost label). split; [reflexivity | exact Hw'].
    + exists (set_paths np (l :: lp) ∘ set_path_cost label). split; [reflexivity |].
      unfold modify_agent, update. rewrite Hw'. unfold with_agents. simpl.
      now rewrite list_alter_alter_eq.
  - exists (set_path_cost label). split; [reflexivity | exact Hw'].
Qed.

Lemma net_only_ret {A : Type} (a : A) : net_only (ret a).
Proof. intros w1 w2 E. repeat split. exact E. Qed.

Lemma net_only_raise {A : Type} e : net_only (@raise A e).
Proof. intros w1 w2 E. repeat split. exact E. Qed.

Lemma net_only_read_lift {A : Type} (f : Network -> outcome A) :
  net_only (G <- read id ;; lift (f G)).
Proof. intros w1 w2 E. rewrite !read_lift. simpl. rewrite E. repeat split. Qed.

Lemma net_only_update f : net_only (update f).
Proof. intros w1 w2 E. unfold update. simpl. rewrite E. repeat split. Qed.

Lemma net_only_bind {A B : Type} (m : M A) (k : A -> M B) :
  net_only m -> (forall a, net_only (k a)) -> net_only (bind m k).
Proof.
  intros Hm Hk w1 w2 E. unfold bind.
  destruct (Hm w1 w2 E) as (Hr & Hn & Hp & Hc).
  destruct (Hm w2 w1 (eq_sym E)) as (_ & _ & Hp2 & Hc2).
  destruct (m w1) as [[a | e] w1'], (m w2) as [[a2 | e2] w2']; simpl in *;
    try discriminate.
  - injection Hr as <-.
    destruct (Hk a w1' w2' Hn) as (Hr' & Hn' & Hp' & Hc').
    repeat split; congruence.
  - repeat split; congruence.
Qed.

Lemma net_only_set_up_path fuel i to_node_id : net_only (set_up_path fuel i to_node_id).
Proof.
  unfold set_up_path.
  apply net_only_bind; [apply net_only_read_lift | intros curr].
  apply net_only_bind; [apply net_only_read_lift | intros label].
  apply net_only_bind; [apply net_only_update | intros _].
  apply net_only_bind; [apply net_only_read_lift | intros paths].
  destruct (snd paths); [apply net_only_ret | apply net_only_update].
Qed.

Lemma net_only_check_node node_id : net_only (check_node node_id).
Proof.
  intros w1 w2 E. unfold check_node, bind, read, raise, ret. simpl. rewrite E.
  destruct (map_id_to_no (net w2) !! node_id); repeat split; exact E.
Qed.

Lemma net_only_get_agent i : net_only (get_agent i).
Proof.
  intros w1 w2 E. unfold get_agent, bind, read, raise, ret. simpl. rewrite E.
  destruct (agents (net w2) !! i); repeat split; exact E.
Qed.

Lemma tree_current_first `{!AllocatesOnce} w orig cost_type n :
  map_id_to_no (net w) !! orig = Some n ->
  tree_current orig cost_type (snd (single_source_shortest_path orig cost_type w)).
Proof.
  intros E. rewrite (single_source_shortest_path_known w _ cost_type n E).
  exists n. simpl. split; [now rewrite prepared_maps |].
  split; [apply allocated_tree, prepared_allocated |].
  split; reflexivity.
Qed.

(** A run from the origin whose tree is current changes nothing but the
    log. *)
Lemma tree_current_again w orig cost_type :
  tree_current orig cost_type w ->
  net (snd (single_source_shortest_path orig cost_type w)) = net w /\
  _prev_cost_type (snd (single_source_shortest_path orig cost_type w))
  = _prev_cost_type w.
Proof.
  intros (n & E & Ha & Hprev & Htree).
  rewrite (single_source_shortest_path_known w _ cost_type n E).
  rewrite (prepared_same cost_type w Ha Hprev). simpl.
  split; [exact Htree | now rewrite Hprev].
Qed.

Lemma tree_current_with_agents `{!AllocatesOnce} w orig cost_type ags :
  tree_current orig cost_type w -> tree_current orig cost_type (with_agents ags w).
Proof.
  intros (n & E & Ha & Hprev & Htree). exists n. simpl.
  split; [exact E |]. split; [now apply allocated_agents |].
  split; [exact Hprev |].
  change (set_agents ags (write_tree (shortest_path_n (engine_args (net w) n 0)) (net w))
          = set_agents ags (net w)).
  now rewrite Htree.
Qed.

Lemma single_source_shortest_path_same_state w1 w2 orig cost_type :
  same_state w1 w2 ->
  fst (single_source_shortest_path orig cost_type w1)
  = fst (single_source_shortest_path orig cost_type w2) /\
  same_state (snd (single_source_shortest_path orig cost_type w1))
             (snd (single_source_shortest_path orig cost_type w2)).
Proof.
  intros [Hn Hp].
  unfold single_source_shortest_path, _optimal_label_correcting_CAPI, get_node_no,
    dict_getitem, bind, log, update, get_prev_cost_type, set_prev_cost_type, read,
    lift, ret, same_state.
  simpl. rewrite Hn, Hp.
  destruct (String.eqb (_prev_cost_type w2) cost_type); simpl;
    destruct (map_id_to_no (net w2) !! orig); simpl; split; reflexivity || (split; reflexivity).
Qed.

(** One pass of the loop body, case by case. *)
Lemma agent_iteration_cases fuel engine_type prev i w :
  agent_iteration fuel engine_type prev i w
  = match agents (net w) !! i with
    | None => (Raise IndexError, w)
    | Some a =>
        if String.eqb (o_node_id a) (d_node_id a) then (Return prev, w)
        else
          match map_id_to_no (net w) !! o_node_id a with
          | None => (Raise (not_in_network (o_node_id a)), w)
          | Some _ =>
              match map_id_to_no (net w) !! d_node_id a with
              | None => (Raise (not_in_network (d_node_id a)), w)
              | Some _ =>
                  let w1 := if String.eqb (o_node_id a) prev then w
                            else snd (single_source_shortest_path (o_node_id a) engine_type w) in
                  (match fst (set_up_path fuel i (d_node_id a) w1) with
                   | Return _ => Return (o_node_id a)
                   | Raise e => Raise e
                   end,
                   snd (set_up_path fuel i (d_node_id a) w1))
              end
          end
    end.
Proof.
  unfold agent_iteration. unfold bind at 1. unfold get_agent, bind at 1, read at 1.
  cbn [id]. destruct (agents (net w) !! i) as [a |]; [| reflexivity].
  unfold ret at 1. destruct (String.eqb_spec (o_node_id a) (d_node_id a)) as [Eod | Nod];
    [reflexivity |].
  destruct (map_id_to_no (net w) !! o_node_id a) as [n |] eqn:Eo.
  2: { now rewrite (bind_raise _ _ _ _ _ (check_node_unknown w _ Eo)). }
  rewrite (bind_return _ _ _ _ _ (check_node_known w _ n Eo)).
  destruct (map_id_to_no (net w) !! d_node_id a) as [m |] eqn:Ed.
  2: { now rewrite (bind_raise _ _ _ _ _ (check_node_unknown w _ Ed)). }
  rewrite (bind_return _ _ _ _ _ (check_node_known w _ m Ed)).
  cbv zeta.
  destruct (String.eqb_spec (o_node_id a) prev) as [Eprev | Nprev]; simpl negb; cbv iota.
  - unfold bind at 1, ret at 1. unfold bind at 1.
    destruct (set_up_path fuel i (d_node_id a) w) as [[[] | e] w2]; simpl;
      [now rewrite Eprev | reflexivity].
  - unfold bind at 1. unfold bind at 1.
    rewrite (single_source_shortest_path_known w _ engine_type n Eo).
    unfold ret at 1. cbn [snd]. unfold bind at 1.
    destruct (set_up_path fuel i (d_node_id a) _) as [[[] | e] w2]; reflexivity.
Qed.

Lemma agent_iteration_recompute_cases fuel engine_type prev i w :
  agent_iteration_recompute fuel engine_type prev i w
  = match agents (net w) !! i with
    | None => (Raise IndexError, w)
    | Some a =>
        if String.eqb (o_node_id a) (d_node_id a) then (Return prev, w)
        else
          match map_id_to_no (net w) !! o_node_id a with
          | None => (Raise (not_in_network (o_node_id a)), w)
          | Some _ =>
              match map_id_to_no (net w) !! d_node_id a with
              | None => (Raise (not_in_network (d_node_id a)), w)
              | Some _ =>
                  let w1 := snd (single_source_shortest_path (o_node_id a) engine_type w) in
                  (match fst (set_up_path fuel i (d_node_id a) w1) with
                   | Return _ => Return (o_node_id a)
                   | Raise e => Raise e
                   end,
                   snd (set_up_path fuel i (d_node_id a) w1))
              end
          end
    end.
Proof.
  unfold agent_iteration_recompute. unfold bind at 1. unfold get_agent, bind at 1, read at 1.
  cbn [id]. destruct (agents (net w) !! i) as [a |]; [| reflexivity].
  unfold ret at 1. destruct (String.eqb_spec (o_node_id a) (d_node_id a)) as [Eod | Nod];
    [reflexivity |].
  destruct (map_id_to_no (net w) !! o_node_id a) as [n |] eqn:Eo.
  2: { now rewrite (bind_raise _ _ _ _ _ (check_node_unknown w _ Eo)). }
  rewrite (bind_return _ _ _ _ _ (check_node_known w _ n Eo)).
  destruct (map_id_to_no (net w) !! d_node_id a) as [m |] eqn:Ed.
  2: { now rewrite (bind_raise _ _ _ _ _ (check_node_unknown w _ Ed)). }
  rewrite (bind_return _ _ _ _ _ (check_node_known w _ m Ed)).
  cbv zeta. unfold bind at 1.
  rewrite (single_source_shortest_path_known w _ engine_type n Eo).
  cbn [snd]. unfold bind at 1.
  destruct (set_up_path fuel i (d_node_id a) _) as [[[] | e] w2]; reflexivity.
Qed.

Lemma for_agents_cons (body : string -> nat -> M string) prev i rest w :
  for_agents body prev (i :: rest) w
  = match body prev i w with
    | (Return p, w1) => for_agents body p rest w1
    | (Raise e, w1) => (Raise e, w1)
    end.
Proof. reflexivity. Qed.

Lemma tree_current_same_state w1 w2 orig cost_type :
  same_state w1 w2 -> tree_current orig cost_type w1 -> tree_current orig cost_type w2.
Proof.
  intros [Hn Hp] (n & E & Ha & Hprev & Htree). exists n.
  rewrite <- Hn, <- Hp. auto.
Qed.

Lemma set_up_path_same_state fuel i to_node_id w1 w2 :
  same_state w1 w2 ->
  fst (set_up_path fuel i to_node_id w1) = fst (set_up_path fuel i to_node_id w2) /\
  same_state (snd (set_up_path fuel i to_node_id w1))
             (snd (set_up_path fuel i to_node_id w2)).
Proof.
  intros [Hn Hp].
  destruct (net_only_set_up_path fuel i to_node_id w1 w2 Hn) as (Hr & Hn' & Hp1 & _).
  destruct (net_only_set_up_path fuel i to_node_id w2 w1 (eq_sym Hn)) as (_ & _ & Hp2 & _).
  split; [exact Hr |]. split; [exact Hn' | congruence].
Qed.

Lemma set_up_path_maps fuel i to_node_id w :
  map_id_to_no (net (snd (set_up_path fuel i to_node_id w))) = map_id_to_no (net w).
Proof. destruct (set_up_path_alter fuel i to_node_id w) as (f & _ & ->). reflexivity. Qed.

Lemma tree_current_set_up_path `{!AllocatesOnce} fuel i to_node_id w orig cost_type :
  tree_current orig cost_type w ->
  tree_current orig cost_type (snd (set_up_path fuel i to_node_id w)).
Proof.
  intros Ht. destruct (set_up_path_alter fuel i to_node_id w) as (f & _ & ->).
  now apply tree_current_with_agents.
Qed.

Lemma empty_id_differs G node_id n :
  map_id_to_no G !! "" = None -> map_id_to_no G !! node_id = Some n -> node_id <> "".
Proof. intros Hnone Hsome ->. congruence. Qed.

(** The pass with the cache and the pass that always runs the engine, from
    states that agree, end in states that agree, with the same outcome. *)
Lemma agent_iteration_refines `{!AllocatesOnce} fuel engine_type prev prev_r i wc wr :
  same_state wc wr ->
  map_id_to_no (net wc) !! "" = None ->
  prev = "" \/ tree_current prev engine_type wc ->
  match fst (agent_iteration fuel engine_type prev i wc),
        fst (agent_iteration_recompute fuel engine_type prev_r i wr) with
  | Return p, Return _ =>
      p = "" \/ tree_current p engine_type (snd (agent_iteration fuel engine_type prev i wc))
  | Raise e, Raise e' => e = e'
  | _, _ => False
  end /\
  same_state (snd (agent_iteration fuel engine_type prev i wc))
             (snd (agent_iteration_recompute fuel engine_type prev_r i wr)) /\
  map_id_to_no (net (snd (agent_iteration fuel engine_type prev i wc))) !! "" = None.
Proof.
  intros Hs Hempty Hprev. pose proof Hs as [Hn Hp].
  rewrite agent_iteration_cases, agent_iteration_recompute_cases, <- Hn.
  destruct (agents (net wc) !! i) as [a |]; [| now repeat split].
  destruct (String.eqb (o_node_id a) (d_node_id a)); [now repeat split |].
  destruct (map_id_to_no (net wc) !! o_node_id a) as [n |] eqn:Eo; [| now repeat split].
  destruct (map_id_to_no (net wc) !! d_node_id a) as [m |] eqn:Ed; [| now repeat split].
  cbv zeta.
  set (w1c := if String.eqb (o_node_id a) prev then wc
              else snd (single_source_shortest_path (o_node_id a) engine_type wc)).
  set (w1r := snd (single_source_shortest_path (o_node_id a) engine_type wr)).
  assert (Hstep : same_state w1c w1r /\ tree_current (o_node_id a) engine_type w1c /\
                  map_id_to_no (net w1c) = map_id_to_no (net wc)).
  { subst w1c w1r.
    destruct (String.eqb_spec (o_node_id a) prev) as [Eprev | Nprev].
    - destruct Hprev as [-> | Ht];
        [exfalso; now apply (empty_id_differs _ _ _ Hempty Eo) |].
      rewrite Eprev in *.
      destruct (tree_current_again wr prev engine_type
                  (tree_current_same_state _ _ _ _ Hs Ht)) as [Hn' Hp'].
      split; [split; congruence |]. now split.
    - split; [apply single_source_shortest_path_same_state, Hs |].
      split; [now apply (tree_current_first _ _ _ n) |].
      apply single_source_shortest_path_maps. }
  destruct Hstep as (Hs1 & Ht1 & Hm1).
  destruct (set_up_path_same_state fuel i (d_node_id a) w1c w1r Hs1) as [Hr Hs2].
  cbn [fst snd]. rewrite <- Hr.
  split; [| split; [exact Hs2 | now rewrite set_up_path_maps, Hm1]].
  destruct (fst (set_up_path fuel i (d_node_id a) w1c)); [| reflexivity].
  right. now apply tree_current_set_up_path.
Qed.

Lemma for_agents_refines `{!AllocatesOnce} fuel engine_type positions :
  forall prev prev_r wc wr,
    same_state wc wr ->
    map_id_to_no (net wc) !! "" = None ->
    prev = "" \/ tree_current prev engine_type wc ->
    match fst (for_agents (agent_iteration fuel engine_type) prev positions wc),
          fst (for_agents (agent_iteration_recompute fuel engine_type) prev_r positions wr) with
    | Return _, Return _ => True
    | Raise e, Raise e' => e = e'
    | _, _ => False
    end /\
    same_state (snd (for_agents (agent_iteration fuel engine_type) prev positions wc))
               (snd (for_agents (agent_iteration_recompute fuel engine_type) prev_r
                       positions wr)).
Proof.
  induction positions as [| i rest IH]; intros prev prev_r wc wr Hs Hempty Hprev.
  - now split.
  - rewrite !for_agents_cons.
    pose proof (agent_iteration_refines fuel engine_type prev prev_r i wc wr Hs Hempty Hprev)
      as (Hout & Hs' & Hempty').
    destruct (agent_iteration fuel engine_type prev i wc) as [[p | e] wc1],
             (agent_iteration_recompute fuel engine_type prev_r i wr) as [[p' | e'] wr1];
      cbn [fst snd] in *; try contradiction.
    + now apply IH.
    + now split.
Qed.

Lemma ensure_agents_eq column_pool w :
  ensure_agents column_pool w
  = (Return tt,
     if get_agent_count (net w) =? 0
     then with_agents (setup_agents (net w) column_pool) w
     else w).
Proof.
  unfold ensure_agents, bind, read. cbn [id].
  now destruct (get_agent_count (net w) =? 0).
Qed.

Lemma ensure_agents_maps column_pool w :
  map_id_to_no (net (snd (ensure_agents column_pool w))) = map_id_to_no (net w).
Proof. rewrite ensure_agents_eq. simpl. now destruct (get_agent_count (net w) =? 0). Qed.

Lemma ensure_agents_calls column_pool w :
  calls (snd (ensure_agents column_pool w)) = calls w.
Proof. rewrite ensure_agents_eq. simpl. now destruct (get_agent_count (net w) =? 0). Qed.

Lemma find_path_for_agents_eq fuel column_pool engine_type w :
  find_path_for_agents fuel column_pool engine_type w
  = match for_agents (agent_iteration fuel engine_type) ""
            (seq 0 (length (agents (net (snd (ensure_agents column_pool w))))))
            (snd (ensure_agents column_pool w)) with
    | (Return _, w') => (Return tt, w')
    | (Raise e, w') => (Raise e, w')
    end.
Proof.
  unfold find_path_for_agents.
  rewrite (bind_return _ _ _ _ _ (ensure_agents_eq column_pool w)).
  rewrite ensure_agents_eq. cbn [snd].
  unfold bind, read, ret. cbn [id].
  now destruct (for_agents _ _ _ _) as [[p | e] w'].
Qed.

Lemma find_path_for_agents_recompute_eq fuel column_pool engine_type w :
  find_path_for_agents_recompute fuel column_pool engine_type w
  = match for_agents (agent_iteration_recompute fuel engine_type) ""
            (seq 0 (length (agents (net (snd (ensure_agents column_pool w))))))
            (snd (ensure_agents column_pool w)) with
    | (Return _, w') => (Return tt, w')
    | (Raise e, w') => (Raise e, w')
    end.
Proof.
  unfold find_path_for_agents_recompute.
  rewrite (bind_return _ _ _ _ _ (ensure_agents_eq column_pool w)).
  rewrite ensure_agents_eq. cbn [snd].
  unfold bind, read, ret. cbn [id].
  now destruct (for_agents _ _ _ _) as [[p | e] w'].
Qed.

(** What a pass leaves alone: the node mapping, every other agent, and the
    origin and destination of its own agent. *)
Lemma agent_iteration_frame fuel engine_type prev i w :
  map_id_to_no (net (snd (agent_iteration fuel engine_type prev i w)))
  = map_id_to_no (net w) /\
  exists f, (forall a, od (f a) = od a) /\
    agents (net (snd (agent_iteration fuel engine_type prev i w)))
    = alter f i (agents (net w)).
Proof.
  assert (Hid : map_id_to_no (net w) = map_id_to_no (net w) /\
                exists f, (forall a, od (f a) = od a) /\
                  agents (net w) = alter f i (agents (net w))).
  { split; [reflexivity |]. exists id. split; [reflexivity |].
    now rewrite list_alter_id. }
  rewrite agent_iteration_cases.
  destruct (agents (net w) !! i) as [a |]; [| exact Hid].
  destruct (String.eqb (o_node_id a) (d_node_id a)); [exact Hid |].
  destruct (map_id_to_no (net w) !! o_node_id a) as [n |] eqn:Eo; [| exact Hid].
  destruct (map_id_to_no (net w) !! d_node_id a) as [m |] eqn:Ed; [| exact Hid].
  cbv zeta. cbn [snd].
  set (w1 := if String.eqb (o_node_id a) prev then w
             else snd (single_source_shortest_path (o_node_id a) engine_type w)).
  assert (Hw1 : map_id_to_no (net w1) = map_id_to_no (net w) /\
                agents (net w1) = agents (net w)).
  { subst w1. destruct (String.eqb (o_node_id a) prev); [now split |].
    split; [apply single_source_shortest_path_maps
           | apply single_source_shortest_path_agents]. }
  destruct Hw1 as [Hm Ha].
  destruct (set_up_path_alter fuel i (d_node_id a) w1) as (f & Hf & ->).
  simpl. split; [exact Hm |]. exists f. now rewrite Ha.
Qed.

Lemma engine_calls_app l1 l2 : engine_calls (l1 ++ l2) = engine_calls l1 ++ engine_calls l2.
Proof. apply omap_app. Qed.

Lemma engine_calls_prepared cost_type w :
  engine_calls (prepared_calls cost_type w) = engine_calls (calls w).
Proof.
  unfold prepared_calls. destruct (String.eqb _ _);
    rewrite !engine_calls_app; simpl; now rewrite ?app_nil_r.
Qed.

Lemma set_up_path_calls fuel i to_node_id w :
  calls (snd (set_up_path fuel i to_node_id w)) = calls w.
Proof. now destruct (net_only_set_up_path fuel i to_node_id w w eq_refl) as (_ & _ & _ & ?). Qed.

Lemma omap_pointwise {A B : Type} (f g : A -> option B) (l : list A) :
  (forall x, f x = g x) -> omap f l = omap g l.
Proof.
  intros Hfg. apply list_omap_ext. induction l; constructor; auto.
Qed.

Lemma processed_origins_cons_skip o d ods :
  o = d -> processed_origins ((o, d) :: ods) = processed_origins ods.
Proof.
  intros ->. unfold processed_origins. rewrite filter_cons.
  destruct (decide (fst (d, d) <> snd (d, d))) as [Hne | _]; [now destruct Hne | reflexivity].
Qed.

Lemma processed_origins_cons_keep o d ods :
  o <> d -> processed_origins ((o, d) :: ods) = o :: processed_origins ods.
Proof.
  intros Hne. unfold processed_origins. rewrite filter_cons.
  destruct (decide (fst (o, d) <> snd (o, d))) as [_ | Heq]; [reflexivity | now destruct Heq].
Qed.

(** The engine runs of the loop are the origins that differ from the one
    before. *)
Lemma for_agents_engine_calls fuel engine_type positions :
  forall prev w p w',
    for_agents (agent_iteration fuel engine_type) prev positions w = (Return p, w') ->
    map_id_to_no (net w) !! "" = None ->
    exists ns,
      Forall2 (fun o n => map_id_to_no (net w) !! o = Some n)
        (origin_changes (if String.eqb prev "" then None else Some prev)
           (processed_origins (omap (fun i => od <$> agents (net w) !! i) positions)))
        ns /\
      engine_calls (calls w') = engine_calls (calls w) ++ ns.
Proof.
  induction positions as [| i rest IH]; intros prev w p w' Hrun Hempty.
  - injection Hrun as _ <-. exists []. split; [constructor | now rewrite app_nil_r].
  - rewrite for_agents_cons in Hrun.
    destruct (agent_iteration_frame fuel engine_type prev i w) as (Hmaps & f & Hf & Hags).
    assert (Hods : omap (fun j => od <$> agents (net (snd (agent_iteration fuel engine_type
                                                                prev i w))) !! j) rest
                   = omap (fun j => od <$> agents (net w) !! j) rest).
    { apply omap_pointwise. intros j. rewrite Hags, list_lookup_alter.
      destruct (decide (i = j)) as [-> | _]; [| reflexivity].
      destruct (agents (net w) !! j) as [a |]; [| reflexivity]. simpl. now rewrite Hf. }
    rewrite agent_iteration_cases in Hrun, Hmaps, Hods. cbn [omap list_omap].
    destruct (agents (net w) !! i) as [a |]; [| discriminate]. cbn [fmap option_fmap option_map].
    unfold od at 1.
    destruct (String.eqb_spec (o_node_id a) (d_node_id a)) as [Eod | Nod].
    { rewrite processed_origins_cons_skip by exact Eod.
      exact (IH prev w p w' Hrun Hempty). }
    rewrite processed_origins_cons_keep by exact Nod.
    destruct (map_id_to_no (net w) !! o_node_id a) as [n |] eqn:Eo; [| discriminate].
    destruct (map_id_to_no (net w) !! d_node_id a) as [m |] eqn:Ed; [| discriminate].
    cbv zeta in *. cbn [snd] in *.
    pose proof (empty_id_differs _ _ _ Hempty Eo) as Hne.
    match type of Hrun with
    | context [set_up_path fuel i (d_node_id a) ?x] => set (w1 := x) in *
    end.
    destruct (set_up_path fuel i (d_node_id a) w1) as [[[] | e] w2] eqn:Esup;
      cbn [fst snd] in *; [| discriminate].
    assert (Hc2 : calls w2 = calls w1).
    { pose proof (set_up_path_calls fuel i (d_node_id a) w1) as Hc.
      now rewrite Esup in Hc. }
    destruct (IH (o_node_id a) w2 p w' Hrun ltac:(now rewrite Hmaps)) as (ns & Hns & Hcalls).
    rewrite Hods, Hc2 in *.
    assert (Hnext : (if String.eqb (o_node_id a) "" then None else Some (o_node_id a))
                    = Some (o_node_id a)).
    { now destruct (String.eqb_spec (o_node_id a) ""). }
    rewrite Hnext in Hns.
    assert (Hns' : Forall2 (fun o n0 => map_id_to_no (net w) !! o = Some n0)
                     (origin_changes (Some (o_node_id a))
                        (processed_origins (omap (fun j => od <$> agents (net w) !! j) rest)))
                     ns).
    { eapply Forall2_impl; [exact Hns |]. intros o n0. now rewrite Hmaps. }
    subst w1.
    destruct (String.eqb_spec (o_node_id a) prev) as [Eprev | Nprev].
    + exists ns. split; [| exact Hcalls].
      destruct (String.eqb_spec prev "") as [-> | _]; [contradiction |].
      cbn [origin_changes]. rewrite Eprev, String.eqb_refl. now rewrite <- Eprev.
    + rewrite (single_source_shortest_path_known w _ engine_type n Eo) in Hcalls.
      cbn [snd calls] in Hcalls.
      rewrite engine_calls_app, engine_calls_prepared in Hcalls. simpl in Hcalls.
      exists (n :: ns). split; [| now rewrite Hcalls, <- app_assoc].
      assert (Hhead : origin_changes (if String.eqb prev "" then None else Some prev)
                        (o_node_id a
                         :: processed_origins
                              (omap (fun j => od <$> agents (net w) !! j) rest))
                      = o_node_id a
                        :: origin_changes (Some (o_node_id a))
                             (processed_origins
                                (omap (fun j => od <$> agents (net w) !! j) rest))).
      { destruct (String.eqb prev ""); cbn [origin_changes]; [reflexivity |].
        now destruct (String.eqb_spec (o_node_id a) prev). }
      rewrite Hhead. now constructor.
Qed.

Lemma omap_lookup_seq {A B : Type} (f : A -> B) (l pre : list A) :
  omap (fun i => f <$> (pre ++ l) !! i) (seq (length pre) (length l)) = map f l.
Proof.
  revert pre. induction l as [| x l IH]; intros pre; [reflexivity |].
  cbn [length seq omap list_omap].
  rewrite (lookup_app_r pre) by lia. rewrite Nat.sub_diag. cbn.
  f_equal. specialize (IH (pre ++ [x])).
  rewrite length_app, <- app_assoc in IH. cbn in IH.
  now rewrite Nat.add_1_r in IH.
Qed.

(** C5: on a network in which the empty string (the initial value of
    [from_node_id_prev]) is no node identifier, [find_path_for_agents] and
    the variant that runs the engine for every agent end with the same
    outcome, the same network (so every agent has the same [path_cost],
    [node_path] and [link_path]) and the same [_prev_cost_type]; and when
    the loop completes, the engine was run once for each agent that
    reaches the engine step with an origin other than that of the agent
    that reached it just before, the first such agent included, and for
    no other. *)
Theorem repeated_origin_cache_refines `{!AllocatesOnce} fuel column_pool engine_type w :
  map_id_to_no (net w) !! "" = None ->
  fst (find_path_for_agents fuel column_pool engine_type w)
  = fst (find_path_for_agents_recompute fuel column_pool engine_type w) /\
  net (snd (find_path_for_agents fuel column_pool engine_type w))
  = net (snd (find_path_for_agents_recompute fuel column_pool engine_type w)) /\
  _prev_cost_type (snd (find_path_for_agents fuel column_pool engine_type w))
  = _prev_cost_type (snd (find_path_for_agents_recompute fuel column_pool engine_type w)) /\
  (fst (find_path_for_agents fuel column_pool engine_type w) = Return tt ->
   exists ns,
     Forall2 (fun o n => map_id_to_no (net w) !! o = Some n)
       (origin_changes None
          (processed_origins (map od (agents (net (snd (ensure_agents column_pool w)))))))
       ns /\
     engine_calls (calls (snd (find_path_for_agents fuel column_pool engine_type w)))
     = engine_calls (calls w) ++ ns).
Proof.
  intros Hempty.
  rewrite find_path_for_agents_eq, find_path_for_agents_recompute_eq.
  pose proof (ensure_agents_maps column_pool w) as Hmaps.
  pose proof (ensure_agents_calls column_pool w) as Hcalls.
  set (w0 := snd (ensure_agents column_pool w)) in *.
  assert (Hempty0 : map_id_to_no (net w0) !! "" = None) by now rewrite Hmaps.
  pose proof (for_agents_refines fuel engine_type (seq 0 (length (agents (net w0))))
                "" "" w0 w0 (conj eq_refl eq_refl) Hempty0 (or_introl eq_refl))
    as [Hout [Hnet Hprev]].
  pose proof (for_agents_engine_calls fuel engine_type (seq 0 (length (agents (net w0)))) "" w0)
    as Hlog.
  destruct (for_agents (agent_iteration fuel engine_type) "" _ w0) as [[p | e] wc],
           (for_agents (agent_iteration_recompute fuel engine_type) "" _ w0) as [[p' | e'] wr];
    cbn [fst snd] in *; try contradiction.
  - repeat (split; [assumption || reflexivity |]).
    intros _. destruct (Hlog p wc eq_refl Hempty0) as (ns & Hns & Hc).
    exists ns. rewrite <- Hcalls. split; [| exact Hc].
    pose proof (omap_lookup_seq od (agents (net w0)) []) as Hods.
    cbn [app length] in Hods. rewrite Hods in Hns.
    eapply Forall2_impl; [exact Hns |]. intros o n. now rewrite Hmaps.
  - subst e'. repeat (split; [assumption || reflexivity |]). discriminate.
Qed.

Lemma agent_iteration_keeps fuel engine_type prev j w i a :
  agents (net w) !! i = Some a ->
  j <> i \/ o_node_id a = d_node_id a ->
  agents (net (snd (agent_iteration fuel engine_type prev j w))) !! i = Some a.
Proof.
  intros Ha [Hne | Hod].
  - destruct (agent_iteration_frame fuel engine_type prev j w) as (_ & f & _ & ->).
    now rewrite list_lookup_alter_ne.
  - destruct (decide (j = i)) as [-> | Hne].
    + rewrite agent_iteration_cases, Ha, Hod, String.eqb_refl. exact Ha.
    + destruct (agent_iteration_frame fuel engine_type prev j w) as (_ & f & _ & ->).
      now rewrite list_lookup_alter_ne.
Qed.

Lemma for_agents_keeps fuel engine_type positions i a :
  i ∉ positions \/ o_node_id a = d_node_id a ->
  forall prev w,
    agents (net w) !! i = Some a ->
    agents (net (snd (for_agents (agent_iteration fuel engine_type) prev positions w))) !! i
    = Some a.
Proof.
  intros Hcase. induction positions as [| j rest IH]; intros prev w Ha; [exact Ha |].
  rewrite for_agents_cons.
  assert (Hj : j <> i \/ o_node_id a = d_node_id a).
  { destruct Hcase as [Hnotin | Hod]; [left | now right].
    intros ->. apply Hnotin. left. }
  assert (Hrest : i ∉ rest \/ o_node_id a = d_node_id a).
  { destruct Hcase as [Hnotin | Hod]; [left | now right].
    intros Hin. apply Hnotin. now right. }
  pose proof (agent_iteration_keeps fuel engine_type prev j w i a Ha Hj) as Hstep.
  destruct (agent_iteration fuel engine_type prev j w) as [[p | e] w1]; cbn [snd] in *.
  - now apply IH.
  - exact Hstep.
Qed.

Lemma for_agents_maps fuel engine_type positions :
  forall prev w,
    map_id_to_no (net (snd (for_agents (agent_iteration fuel engine_type) prev positions w)))
    = map_id_to_no (net w).
Proof.
  induction positions as [| j rest IH]; intros prev w; [reflexivity |].
  rewrite for_agents_cons.
  destruct (agent_iteration_frame fuel engine_type prev j w) as (Hm & _).
  destruct (agent_iteration fuel engine_type prev j w) as [[p | e] w1]; cbn [snd] in *.
  - now rewrite IH.
  - exact Hm.
Qed.

Lemma for_agents_app (body : string -> nat -> M string) l1 l2 :
  forall prev w,
    for_agents body prev (l1 ++ l2) w
    = match for_agents body prev l1 w with
      | (Return p, w1) => for_agents body p l2 w1
      | (Raise e, w1) => (Raise e, w1)
      end.
Proof.
  induction l1 as [| i l1 IH]; intros prev w; [reflexivity |].
  rewrite <- app_comm_cons, !for_agents_cons.
  destruct (body prev i w) as [[p | e] w1]; [apply IH | reflexivity].
Qed.

(** The tail of the loop body at a destination without predecessors. *)
Lemma set_up_path_no_predecessor fuel i to_node_id w n label p l :
  map_id_to_no (net w) !! to_node_id = Some n ->
  0 <= n ->
  getitem (node_label_cost (net w)) n = Return label ->
  getitem (node_preds (net w)) n = Return p -> p < 0 ->
  getitem (link_preds (net w)) n = Return l -> l < 0 ->
  (1 <= fuel)%nat ->
  set_up_path fuel i to_node_id w
  = (Return tt, with_agents (alter (set_path_cost label) i (agents (net w))) w).
Proof.
  intros Eto Hn Elabel Enode Hp Elink Hl Hfuel.
  unfold set_up_path. unfold bind at 1. rewrite read_lift.
  unfold dict_getitem. rewrite Eto.
  unfold bind at 1. rewrite read_lift, Elabel.
  unfold bind at 1. unfold modify_agent at 1, update at 1.
  unfold bind at 1. rewrite read_lift. cbn [net].
  destruct fuel as [| fuel]; [lia |].
  cbn [retrieve_sequence].
  destruct (Z.leb_spec 0 n) as [_ | Hlt]; [| lia].
  change (link_preds (set_agents (alter (set_path_cost label) i (agents (net w))) (net w)))
    with (link_preds (net w)).
  change (node_preds (set_agents (alter (set_path_cost label) i (agents (net w))) (net w)))
    with (node_preds (net w)).
  rewrite Elink, Enode.
  destruct (Z.leb_spec 0 l) as [Hge | _]; [lia |].
  assert (Hend : forall G np lp, retrieve_sequence fuel G p np lp = Return (np, lp)).
  { intros G np lp. destruct fuel; simpl;
      (destruct (Z.leb_spec 0 p) as [Hge | _]; [lia | reflexivity]). }
  rewrite Hend. reflexivity.
Qed.

Lemma find_path_for_agents_snd fuel column_pool engine_type w :
  snd (find_path_for_agents fuel column_pool engine_type w)
  = snd (for_agents (agent_iteration fuel engine_type) ""
           (seq 0 (length (agents (net (snd (ensure_agents column_pool w))))))
           (snd (ensure_agents column_pool w))).
Proof.
  rewrite find_path_for_agents_eq.
  now destruct (for_agents _ _ _ _) as [[p | e] w'].
Qed.

(** C10: in [find_path_for_agents], an agent whose origin and destination
    identifiers are equal is the same record after the loop as before it,
    whatever the outcome of the loop.  An agent with known, distinct
    origin and destination that the loop reaches, and whose destination
    has, in the tree the pass works on, a label at or above
    [MAX_LABEL_COST] and no predecessor node and link, ends with
    [path_cost] equal to that label (the engine's value, not a
    placeholder) and with [node_path] and [link_path] as they were. *)
Theorem agents_without_path_keep_their_paths fuel column_pool engine_type w i a :
  agents (net (snd (ensure_agents column_pool w))) !! i = Some a ->
  (o_node_id a = d_node_id a ->
   agents (net (snd (find_path_for_agents fuel column_pool engine_type w))) !! i = Some a) /\
  (forall prev wi no n label p l,
     for_agents (agent_iteration fuel engine_type) "" (seq 0 i)
       (snd (ensure_agents column_pool w)) = (Return prev, wi) ->
     o_node_id a <> d_node_id a ->
     map_id_to_no (net w) !! o_node_id a = Some no ->
     map_id_to_no (net w) !! d_node_id a = Some n ->
     0 <= n ->
     let wt := if String.eqb (o_node_id a) prev then wi
               else snd (single_source_shortest_path (o_node_id a) engine_type wi) in
     getitem (node_label_cost (net wt)) n = Return label ->
     PrimFloat.leb MAX_LABEL_COST label = true ->
     getitem (node_preds (net wt)) n = Return p -> p < 0 ->
     getitem (link_preds (net wt)) n = Return l -> l < 0 ->
     (1 <= fuel)%nat ->
     agents (net (snd (find_path_for_agents fuel column_pool engine_type w))) !! i
     = Some (set_path_cost label a) /\
     PrimFloat.leb MAX_LABEL_COST (path_cost (set_path_cost label a)) = true /\
     node_path (set_path_cost label a) = node_path a /\
     link_path (set_path_cost label a) = link_path a).
Proof.
  intros Ha. rewrite find_path_for_agents_snd.
  pose proof (ensure_agents_maps column_pool w) as Hmaps0.
  set (w0 := snd (ensure_agents column_pool w)) in *.
  split.
  - intros Hod. apply for_agents_keeps; [now right | exact Ha].
  - intros prev wi no n label p l Hprefix Nod Eo Ed Hn wt Elabel Hmax Enode Hp Elink Hl Hfuel.
    split; [| now repeat split].
    pose proof (lookup_lt_Some _ _ _ Ha) as Hlen.
    assert (Hseq : seq 0 (length (agents (net w0)))
                   = seq 0 i ++ i :: seq (S i) (length (agents (net w0)) - S i)).
    { replace (length (agents (net w0))) with (i + S (length (agents (net w0)) - S i))%nat
        at 1 by lia.
      now rewrite seq_app. }
    rewrite Hseq, for_agents_app, Hprefix, for_agents_cons.
    assert (Hnotin : i ∉ seq 0 i). { rewrite elem_of_seq. lia. }
    assert (Hwi : wi = snd (for_agents (agent_iteration fuel engine_type) "" (seq 0 i) w0))
      by now rewrite Hprefix.
    assert (Hai : agents (net wi) !! i = Some a).
    { rewrite Hwi. apply for_agents_keeps; [now left | exact Ha]. }
    assert (Hmi : map_id_to_no (net wi) = map_id_to_no (net w)).
    { rewrite Hwi, for_agents_maps. exact Hmaps0. }
    rewrite agent_iteration_cases, Hai, Hmi, Eo, Ed.
    destruct (String.eqb_spec (o_node_id a) (d_node_id a)) as [? | _]; [contradiction |].
    cbv zeta. fold wt.
    assert (Hmt : map_id_to_no (net wt) = map_id_to_no (net w)).
    { subst wt. destruct (String.eqb (o_node_id a) prev); [exact Hmi |].
      now rewrite single_source_shortest_path_maps. }
    assert (Hat : agents (net wt) !! i = Some a).
    { subst wt. destruct (String.eqb (o_node_id a) prev); [exact Hai |].
      now rewrite single_source_shortest_path_agents. }
    rewrite (set_up_path_no_predecessor fuel i (d_node_id a) wt n label p l)
      by (rewrite ?Hmt; assumption).
    cbn [fst snd].
    apply for_agents_keeps.
    + left. rewrite elem_of_seq. lia.
    + simpl. now rewrite list_lookup_alter_eq, Hat.
Qed.

End Properties.

(** * Further properties of path.py *)

Section MoreProperties.
Context `{Externals}.

(** ** The network skim: errors *)

(** X1: an output type other than ".omx" and ".csv" makes
    [find_shortest_path_network] raise its [ValueError] at once: no link
    time is rewritten and nothing is sent to the engine. *)
Theorem unsupported_output_type_raises_first w output_dir output_type cost_type mode :
  output_type <> ".omx" -> output_type <> ".csv" ->
  find_shortest_path_network output_dir output_type cost_type mode w
  = (Raise (ValueError ("Error: Unsupported output type '" +:+ output_type +:+ "'.")), w).
Proof.
  intros Homx Hcsv. unfold find_shortest_path_network.
  destruct (String.eqb_spec output_type ".omx") as [? | _]; [contradiction |].
  destruct (String.eqb_spec output_type ".csv") as [? | _]; [contradiction |].
  reflexivity.
Qed.

(** X2: with a cost selector other than "time" and "distance" (for
    instance "dist", which the one-to-one queries accept)
    [find_shortest_path_network] never reaches the export: when the matrix
    computation returns, [cost_units] is unbound and the run ends with
    [UnboundLocalError], in the state the matrix computation left. *)
Theorem other_cost_type_never_exports w output_dir output_type cost_type mode :
  cost_type <> "time" -> cost_type <> "distance" ->
  (exists e, fst (find_shortest_path_network output_dir output_type cost_type mode w)
             = Raise e) /\
  (forall row_nodes w1 matrix w2,
     create_numpy_matrix_parallel row_nodes cost_type w1 = (Return matrix, w2) ->
     export_skim output_dir output_type cost_type mode row_nodes w1
     = (Raise UnboundLocalError, w2)).
Proof.
  intros Htime Hdist.
  assert (Hexport : forall row_nodes w1,
            exists e, fst (export_skim output_dir output_type cost_type mode row_nodes w1)
                      = Raise e).
  { intros row_nodes w1. unfold export_skim. unfold bind at 1.
    destruct (create_numpy_matrix_parallel row_nodes cost_type w1) as [[m | e] w2];
      [| eauto].
    destruct (String.eqb_spec cost_type "time") as [? | _]; [contradiction |].
    destruct (String.eqb_spec cost_type "distance") as [? | _]; [contradiction |].
    simpl. eauto. }
  split.
  - unfold find_shortest_path_network. unfold bind at 1.
    destruct (String.eqb output_type ".omx" || String.eqb output_type ".csv");
      [| simpl; eauto].
    unfold ret at 1. unfold bind at 1. rewrite read_lift.
    destruct (centroid_ids (net w)) as [row_nodes | e]; [| simpl; eauto].
    unfold bind at 1.
    destruct (apply_mode mode w) as [[[] | e] w1]; [| simpl; eauto].
    apply Hexport.
  - intros row_nodes w1 matrix w2 Hm. unfold export_skim.
    rewrite (bind_return _ _ _ _ _ Hm).
    destruct (String.eqb_spec cost_type "time") as [? | _]; [contradiction |].
    destruct (String.eqb_spec cost_type "distance") as [? | _]; [contradiction |].
    reflexivity.
Qed.

(** ** One-to-one queries *)

(** X3: whatever [get_shortest_path] returns is the placeholder 9999999 or
    a label below [MAX_LABEL_COST]; it never hands out a value at or
    above the sentinel as a cost.  The state it leaves is the one of the
    engine run from the origin. *)
Theorem get_shortest_path_below_sentinel w from_node_id to_node_id cost_type x w' :
  get_shortest_path from_node_id to_node_id cost_type w = (Return x, w') ->
  (x = 9999999%float \/ PrimFloat.leb MAX_LABEL_COST x = false) /\
  w' = snd (single_source_shortest_path from_node_id cost_type w).
Proof.
  intros Hq.
  destruct (map_id_to_no (net w) !! from_node_id) as [n |] eqn:Efrom.
  2: { rewrite (get_shortest_path_unknown_from w _ _ _ Efrom) in Hq. discriminate. }
  destruct (map_id_to_no (net w) !! to_node_id) as [m |] eqn:Eto.
  2: { rewrite (get_shortest_path_unknown_to w _ _ _ n Efrom Eto) in Hq. discriminate. }
  rewrite (get_shortest_path_known w _ _ cost_type n m Efrom Eto) in Hq.
  destruct (getitem _ m) as [label |]; [| discriminate].
  injection Hq as Hx Hw. split; [| now symmetry].
  destruct (PrimFloat.leb MAX_LABEL_COST label) eqn:Hle; subst x; [now left | now right].
Qed.

(** ** The cost-selector cache *)

Lemma single_source_shortest_path_prev w orig cost_type :
  _prev_cost_type (snd (single_source_shortest_path orig cost_type w)) = cost_type.
Proof.
  unfold single_source_shortest_path, _optimal_label_correcting_CAPI, get_node_no,
    dict_getitem, bind, log, update, get_prev_cost_type, set_prev_cost_type, read,
    lift, ret.
  simpl.
  destruct (String.eqb_spec (_prev_cost_type w) cost_type); simpl;
    destruct (map_id_to_no (net w) !! orig); simpl; congruence.
Qed.

(** X4: after any call of [single_source_shortest_path], also one that
    fails on an unknown origin, [_prev_cost_type] is the selector of that
    call; so a call that follows with the same selector, for any known
    origin, allocates and runs the engine and never rebuilds the cost
    array. *)
Theorem same_selector_never_rebuilds w orig cost_type :
  _prev_cost_type (snd (single_source_shortest_path orig cost_type w)) = cost_type /\
  (forall next n,
     map_id_to_no (net w) !! next = Some n ->
     calls (snd (single_source_shortest_path next cost_type
                   (snd (single_source_shortest_path orig cost_type w))))
     = calls (snd (single_source_shortest_path orig cost_type w))
       ++ [CallAllocate; CallEngine n]).
Proof.
  split; [apply single_source_shortest_path_prev |].
  intros next n E.
  set (w1 := snd (single_source_shortest_path orig cost_type w)).
  assert (E1 : map_id_to_no (net w1) !! next = Some n).
  { subst w1. now rewrite single_source_shortest_path_maps. }
  rewrite (single_source_shortest_path_known w1 _ cost_type n E1). simpl.
  unfold prepared_calls. subst w1.
  rewrite single_source_shortest_path_prev, String.eqb_refl.
  now rewrite <- app_assoc.
Qed.

(** ** The all-pairs benchmark *)

Lemma for_each_cons {A : Type} (body : A -> M unit) x l w :
  for_each body (x :: l) w
  = match body x w with
    | (Return _, w1) => for_each body l w1
    | (Raise e, w1) => (Raise e, w1)
    end.
Proof. reflexivity. Qed.


(** ** Mode-specific link times *)

Lemma converted_link_spec w mode :
  link_size (net w) = Z.of_nat (length (links (net w))) ->
  PrimFloat.eqb (ffs mode) 0 = false ->
  apply_mode mode w
  = (Return tt, with_links (map (converted_link mode) (links (net w))) w).
Proof.
  intros Hsize Hffs. unfold apply_mode. unfold bind at 1. unfold read at 1. cbn [id net].
  destruct (String.eqb (mode_type mode) "p") eqn:Ep.
  - rewrite (bind_return _ _ _ _ _
               (for_range_links _ _ w (fun w i l => convert_walk_at mode w i l Hffs) Hsize)).
    assert (Et : String.eqb (mode_type mode) "t" = false).
    { apply String.eqb_eq in Ep. now rewrite Ep. }
    assert (Eb : String.eqb (mode_type mode) "b" = false).
    { apply String.eqb_eq in Ep. now rewrite Ep. }
    rewrite Et, Eb. unfold ret. do 2 f_equal. apply map_ext. intros l.
    unfold converted_link. now rewrite Ep.
  - unfold bind at 1, ret at 1.
    destruct (String.eqb (mode_type mode) "t") eqn:Et;
      [| destruct (String.eqb (mode_type mode) "b") eqn:Eb].
    + rewrite (for_range_links _ _ w
                 (fun w i l => convert_walk_on_pedestrian_links_at mode w i l Hffs) Hsize).
      do 2 f_equal. apply map_ext. intros l. unfold converted_link. now rewrite Ep, Et.
    + rewrite (for_range_links _ _ w (fun w i l => convert_bike_at mode w i l Hffs) Hsize).
      do 2 f_equal. apply map_ext. intros l. unfold converted_link. now rewrite Ep, Et, Eb.
    + unfold ret. f_equal. rewrite <- (with_links_id w) at 1. f_equal.
      rewrite <- (map_id (links (net w))) at 1. apply map_ext. intros l.
      unfold converted_link. now rewrite Ep, Et, Eb.
Qed.

Lemma converted_link_again mode l :
  converted_link mode (converted_link mode l) = converted_link mode l.
Proof.
  unfold converted_link.
  destruct (String.eqb (mode_type mode) "p"); [reflexivity |].
  destruct (String.eqb (mode_type mode) "t").
  - destruct (str_contains "p" (allowed_uses l)) eqn:Ec; simpl; now rewrite Ec.
  - now destruct (String.eqb (mode_type mode) "b").
Qed.

Lemma apply_mode_twice w first second :
  link_size (net w) = Z.of_nat (length (links (net w))) ->
  PrimFloat.eqb (ffs first) 0 = false ->
  PrimFloat.eqb (ffs second) 0 = false ->
  apply_mode second (snd (apply_mode first w))
  = (Return tt,
     with_links (map (fun l => converted_link second (converted_link first l))
                   (links (net w))) w).
Proof.
  intros Hsize Hf Hs. rewrite (converted_link_spec w first Hsize Hf). cbn [snd].
  rewrite converted_link_spec; [| simpl; now rewrite length_map | exact Hs].
  unfold with_links. simpl. now rewrite map_map.
Qed.

(** X6: a pedestrian or biking run with [mode.ffs] zero on a network with
    at least one link stops with [ZeroDivisionError] at the first link,
    before any free-flow time is changed. *)
Theorem zero_speed_raises_before_any_change w mode first_link rest :
  mode_type mode = "p" \/ mode_type mode = "b" ->
  PrimFloat.eqb (ffs mode) 0 = true ->
  links (net w) = first_link :: rest ->
  0 < link_size (net w) ->
  apply_mode mode w = (Raise ZeroDivisionError, w).
Proof.
  intros Hmode Hffs Hlinks Hsize.
  assert (Hat : links (net w) !! Z.to_nat 0 = Some first_link) by now rewrite Hlinks.
  assert (Hwalk : for_range (link_size (net w)) (convert_walk mode) w
                  = (Raise ZeroDivisionError, w)).
  { unfold for_range. rewrite seqZ_cons by exact Hsize. rewrite for_each_cons.
    unfold convert_walk at 1.
    rewrite (bind_return _ _ _ _ _ (get_link_at w 0 first_link (Z.le_refl 0) Hat)).
    unfold walk_time, py_div. now rewrite Hffs. }
  assert (Hbike : for_range (link_size (net w)) (convert_bike mode) w
                  = (Raise ZeroDivisionError, w)).
  { unfold for_range. rewrite seqZ_cons by exact Hsize. rewrite for_each_cons.
    unfold convert_bike at 1.
    rewrite (bind_return _ _ _ _ _ (get_link_at w 0 first_link (Z.le_refl 0) Hat)).
    unfold bike_time, py_div. now rewrite Hffs. }
  unfold apply_mode. unfold bind at 1. unfold read at 1. cbn [id net].
  destruct Hmode as [Ep | Eb]; rewrite ?Ep, ?Eb; simpl String.eqb; cbv iota.
  - now rewrite (bind_raise _ _ _ _ _ Hwalk).
  - unfold bind at 1, ret at 1. exact Hbike.
Qed.

(** X7: applying a mode a second time changes nothing: the new times are
    computed from the lengths, not from the times they replace. *)
Theorem apply_mode_idempotent w mode :
  link_size (net w) = Z.of_nat (length (links (net w))) ->
  PrimFloat.eqb (ffs mode) 0 = false ->
  apply_mode mode (snd (apply_mode mode w)) = (Return tt, snd (apply_mode mode w)).
Proof.
  intros Hsize Hffs. rewrite (apply_mode_twice w mode mode Hsize Hffs Hffs).
  rewrite (converted_link_spec w mode Hsize Hffs). cbn [snd]. do 2 f_equal.
  apply map_ext. intros l. apply converted_link_again.
Qed.

(** X8: a pedestrian or biking run overwrites what an earlier run of any
    mode left: the links are those of the later mode applied alone. *)
Theorem full_conversion_overwrites w first second :
  mode_type second = "p" \/ mode_type second = "b" ->
  link_size (net w) = Z.of_nat (length (links (net w))) ->
  PrimFloat.eqb (ffs first) 0 = false ->
  PrimFloat.eqb (ffs second) 0 = false ->
  apply_mode second (snd (apply_mode first w)) = apply_mode second w.
Proof.
  intros Hmode Hsize Hf Hs. rewrite (apply_mode_twice w first second Hsize Hf Hs).
  rewrite (converted_link_spec w second Hsize Hs). do 2 f_equal.
  apply map_ext. intros l. unfold converted_link at 1 3.
  destruct Hmode as [-> | ->]; simpl String.eqb; cbv iota.
  - unfold converted_link. repeat (destruct (String.eqb _ _)); try reflexivity.
    now destruct (str_contains "p" (allowed_uses l)).
  - unfold converted_link. repeat (destruct (String.eqb _ _)); try reflexivity.
    now destruct (str_contains "p" (allowed_uses l)).
Qed.

(** X9: a transit run after a pedestrian run at the same speed changes
    nothing: the links without "p" keep the walking time the pedestrian
    run gave them, their earlier free-flow time is not restored. *)
Theorem transit_after_pedestrian_keeps_walk_times w pedestrian_mode transit_mode :
  mode_type pedestrian_mode = "p" ->
  mode_type transit_mode = "t" ->
  ffs transit_mode = ffs pedestrian_mode ->
  link_size (net w) = Z.of_nat (length (links (net w))) ->
  PrimFloat.eqb (ffs pedestrian_mode) 0 = false ->
  apply_mode transit_mode (snd (apply_mode pedestrian_mode w))
  = (Return tt, snd (apply_mode pedestrian_mode w)).
Proof.
  intros Ep Et Effs Hsize Hffs.
  rewrite (apply_mode_twice w pedestrian_mode transit_mode Hsize Hffs)
    by (now rewrite Effs).
  rewrite (converted_link_spec w pedestrian_mode Hsize Hffs). cbn [snd]. do 2 f_equal.
  apply map_ext. intros l. unfold converted_link. rewrite Ep, Et, Effs. simpl.
  now destruct (str_contains "p" (allowed_uses l)).
Qed.

(** ** The skim matrix: shape, errors and cost *)

Lemma mapM_length {A B : Type} (f : A -> M B) l :
  forall w ys, fst (mapM f l w) = Return ys -> length ys = length l.
Proof.
  induction l as [| x l IH]; intros w ys Hys.
  - injection Hys as <-. reflexivity.
  - rewrite mapM_cons in Hys.
    destruct (f x w) as [[y | e] w1]; [| discriminate].
    specialize (IH w1).
    destruct (mapM f l w1) as [[ys' | e] w2]; [| discriminate].
    injection Hys as <-. simpl. f_equal. now apply IH.
Qed.

Lemma mapM_Forall {A B : Type} (P : B -> Prop) (f : A -> M B) l :
  (forall x w y, fst (f x w) = Return y -> P y) ->
  forall w ys, fst (mapM f l w) = Return ys -> Forall P ys.
Proof.
  intros Hf. induction l as [| x l IH]; intros w ys Hys.
  - injection Hys as <-. constructor.
  - rewrite mapM_cons in Hys. specialize (Hf x w).
    destruct (f x w) as [[y | e] w1]; [| discriminate].
    specialize (IH w1).
    destruct (mapM f l w1) as [[ys' | e] w2]; [| discriminate].
    injection Hys as <-. constructor; [now apply Hf | now apply IH].
Qed.

(** X10: a matrix that [create_numpy_matrix_parallel] returns is square:
    as many rows as row nodes, and as many entries in every row. *)
Theorem skim_matrix_is_square w row_nodes cost_type matrix :
  fst (create_numpy_matrix_parallel row_nodes cost_type w) = Return matrix ->
  length matrix = length row_nodes /\
  Forall (fun row => length row = length row_nodes) matrix.
Proof.
  intros Hm. split.
  - exact (mapM_length _ _ _ _ Hm).
  - eapply mapM_Forall; [| exact Hm].
    intros ri w' row Hrow. exact (mapM_length _ _ _ _ Hrow).
Qed.

Lemma get_shortest_path_returns w from_node_id to_node_id cost_type x w' :
  get_shortest_path from_node_id to_node_id cost_type w = (Return x, w') ->
  exists n,
    map_id_to_no (net w) !! from_node_id = Some n /\
    is_Some (map_id_to_no (net w) !! to_node_id) /\
    map_id_to_no (net w') = map_id_to_no (net w) /\
    engine_calls (calls w') = engine_calls (calls w) ++ [n].
Proof.
  intros Hq.
  destruct (map_id_to_no (net w) !! from_node_id) as [n |] eqn:Efrom.
  2: { rewrite (get_shortest_path_unknown_from w _ _ _ Efrom) in Hq. discriminate. }
  destruct (map_id_to_no (net w) !! to_node_id) as [m |] eqn:Eto.
  2: { rewrite (get_shortest_path_unknown_to w _ _ _ n Efrom Eto) in Hq. discriminate. }
  rewrite (get_shortest_path_known w _ _ cost_type n m Efrom Eto) in Hq.
  exists n. split; [reflexivity |]. split; [eauto |].
  injection Hq as _ <-. split; [apply single_source_shortest_path_maps |].
  rewrite (single_source_shortest_path_known w _ cost_type n Efrom). cbn [snd calls].
  now rewrite engine_calls_app, engine_calls_prepared.
Qed.

Lemma compute_row_distances_unknown row_node cost_type r cols :
  forall w,
    r ∈ cols -> map_id_to_no (net w) !! r = None ->
    exists e, fst (compute_row_distances row_node cols cost_type w) = Raise e.
Proof.
  unfold compute_row_distances.
  induction cols as [| c0 cols IH]; intros w Hin Hr; [now apply elem_of_nil in Hin |].
  rewrite mapM_cons.
  destruct (get_shortest_path row_node c0 cost_type w) as [[x | e] w1] eqn:Hq;
    [| simpl; eauto].
  destruct (get_shortest_path_returns _ _ _ _ _ _ Hq) as (n & _ & [m Hc0] & Hmaps & _).
  apply elem_of_cons in Hin as [-> | Hin]; [congruence |].
  destruct (IH w1 Hin ltac:(now rewrite Hmaps)) as [e He].
  destruct (mapM _ cols w1) as [[ys | e'] w2]; [discriminate | simpl; eauto].
Qed.

(** X11: one row node that is no key of [map_id_to_no] (a centroid whose
    zone identifier is not a node identifier, say) and
    [create_numpy_matrix_parallel] returns no matrix at all: it raises. *)
Theorem unknown_row_node_aborts_matrix w row_nodes cost_type r :
  r ∈ row_nodes ->
  map_id_to_no (net w) !! r = None ->
  exists e, fst (create_numpy_matrix_parallel row_nodes cost_type w) = Raise e.
Proof.
  intros Hin Hr. unfold create_numpy_matrix_parallel.
  destruct row_nodes as [| r0 rest] eqn:Erows; [now apply elem_of_nil in Hin |].
  rewrite mapM_cons.
  destruct (compute_row_distances_unknown r0 cost_type r (r0 :: rest) w Hin Hr) as [e He].
  destruct (compute_row_distances r0 (r0 :: rest) cost_type w) as [[row | e'] w1];
    [discriminate | simpl; eauto].
Qed.

Lemma compute_row_distances_engine_calls row_node cost_type n cols :
  forall w row w',
    compute_row_distances row_node cols cost_type w = (Return row, w') ->
    map_id_to_no (net w) !! row_node = Some n ->
    map_id_to_no (net w') = map_id_to_no (net w) /\
    engine_calls (calls w') = engine_calls (calls w) ++ replicate (length cols) n.
Proof.
  unfold compute_row_distances.
  induction cols as [| c0 cols IH]; intros w row w' Hrow Hn.
  - injection Hrow as _ <-. split; [reflexivity | now rewrite app_nil_r].
  - rewrite mapM_cons in Hrow.
    destruct (get_shortest_path row_node c0 cost_type w) as [[x | e] w1] eqn:Hq;
      [| discriminate].
    destruct (get_shortest_path_returns _ _ _ _ _ _ Hq) as (n' & Hn' & _ & Hmaps & Hcalls).
    assert (n' = n) by congruence. subst n'.
    destruct (mapM _ cols w1) as [[ys | e'] w2] eqn:Hrest; [| discriminate].
    injection Hrow as _ <-.
    destruct (IH w1 ys w2 Hrest ltac:(now rewrite Hmaps)) as [Hmaps2 Hcalls2].
    split; [congruence |].
    rewrite Hcalls2, Hcalls, <- app_assoc. reflexivity.
Qed.

Lemma rows_engine_calls cost_type cols c0 rows :
  forall w matrix w',
    mapM (fun ri => compute_row_distances ri (c0 :: cols) cost_type) rows w
    = (Return matrix, w') ->
    exists nos,
      Forall2 (fun r n => map_id_to_no (net w) !! r = Some n) rows nos /\
      engine_calls (calls w')
      = engine_calls (calls w) ++ flat_map (replicate (length (c0 :: cols))) nos.
Proof.
  induction rows as [| r rows IH]; intros w matrix w' Hm.
  - injection Hm as _ <-. exists []. split; [constructor | now rewrite app_nil_r].
  - rewrite mapM_cons in Hm.
    destruct (compute_row_distances r (c0 :: cols) cost_type w) as [[row | e] w1] eqn:Hrow;
      [| discriminate].
    assert (Hknown : exists n, map_id_to_no (net w) !! r = Some n).
    { unfold compute_row_distances in Hrow. rewrite mapM_cons in Hrow.
      destruct (get_shortest_path r c0 cost_type w) as [[x | e] w0] eqn:Hq;
        [| discriminate].
      destruct (get_shortest_path_returns _ _ _ _ _ _ Hq) as (n & Hn & _). eauto. }
    destruct Hknown as [n Hn].
    destruct (compute_row_distances_engine_calls r cost_type n (c0 :: cols) w row w1 Hrow Hn)
      as [Hmaps Hcalls].
    destruct (mapM _ rows w1) as [[ms | e] w2] eqn:Hrest; [| discriminate].
    injection Hm as _ <-.
    destruct (IH w1 ms w2 Hrest) as (nos & Hnos & Hcalls2).
    exists (n :: nos). split.
    + constructor; [exact Hn |]. eapply Forall2_impl; [exact Hnos |].
      intros r' n'. now rewrite Hmaps.
    + rewrite Hcalls2, Hcalls, <- app_assoc. reflexivity.
Qed.

(** X12: a matrix over n row nodes costs n * n engine runs: every entry
    starts its own run from the row's node, so each row's tree is
    computed n times. *)
Theorem skim_matrix_runs_engine_per_entry w row_nodes cost_type matrix w' :
  create_numpy_matrix_parallel row_nodes cost_type w = (Return matrix, w') ->
  exists nos,
    Forall2 (fun r n => map_id_to_no (net w) !! r = Some n) row_nodes nos /\
    engine_calls (calls w')
    = engine_calls (calls w) ++ flat_map (replicate (length row_nodes)) nos /\
    length (flat_map (replicate (length row_nodes)) nos)
    = (length row_nodes * length row_nodes)%nat.
Proof.
  intros Hm. unfold create_numpy_matrix_parallel in Hm.
  assert (Hlen : forall k (nos : list Z),
            length (flat_map (replicate k) nos) = (length nos * k)%nat).
  { intros k nos. induction nos as [| n nos IH]; [reflexivity |].
    simpl. rewrite length_app, length_replicate, IH. lia. }
  destruct row_nodes as [| c0 cols] eqn:Erows.
  - injection Hm as _ <-. exists []. split; [constructor |].
    split; [now rewrite app_nil_r | reflexivity].
  - destruct (rows_engine_calls cost_type cols c0 (c0 :: cols) w matrix w' Hm)
      as (nos & Hnos & Hcalls).
    exists nos. split; [exact Hnos |]. split; [exact Hcalls |].
    rewrite Hlen. now rewrite <- (Forall2_length _ _ _ Hnos).
Qed.

(** ** The agent loop: what it keeps *)

Lemma map_od_alter (f : Agent -> Agent) i (ags : list Agent) :
  (forall a, od (f a) = od a) -> map od (alter f i ags) = map od ags.
Proof.
  intros Hf. apply list_eq. intros j.
  rewrite !list_lookup_fmap, list_lookup_alter.
  destruct (decide (i = j)) as [-> | _]; [| reflexivity].
  destruct (ags !! j) as [a |]; [| reflexivity]. simpl. now rewrite Hf.
Qed.

Lemma for_agents_ods fuel engine_type positions :
  forall prev w,
    map od (agents (net (snd (for_agents (agent_iteration fuel engine_type) prev
                                positions w))))
    = map od (agents (net w)).
Proof.
  induction positions as [| j rest IH]; intros prev w; [reflexivity |].
  rewrite for_agents_cons.
  destruct (agent_iteration_frame fuel engine_type prev j w) as (_ & f & Hf & Hags).
  destruct (agent_iteration fuel engine_type prev j w) as [[p | e] w1]; cbn [snd] in *.
  - rewrite IH, Hags. now apply map_od_alter.
  - rewrite Hags. now apply map_od_alter.
Qed.

(** X13: whatever its outcome, [find_path_for_agents] leaves the demand
    as it found it: the same number of agents, each with its origin and
    destination, and the same node mapping. *)
Theorem find_path_for_agents_keeps_demand fuel column_pool engine_type w :
  map od (agents (net (snd (find_path_for_agents fuel column_pool engine_type w))))
  = map od (agents (net (snd (ensure_agents column_pool w)))) /\
  length (agents (net (snd (find_path_for_agents fuel column_pool engine_type w))))
  = length (agents (net (snd (ensure_agents column_pool w)))) /\
  map_id_to_no (net (snd (find_path_for_agents fuel column_pool engine_type w)))
  = map_id_to_no (net w).
Proof.
  rewrite find_path_for_agents_snd.
  pose proof (for_agents_ods fuel engine_type
                (seq 0 (length (agents (net (snd (ensure_agents column_pool w))))))
                "" (snd (ensure_agents column_pool w))) as Hods.
  split; [exact Hods |]. split.
  - apply (f_equal length) in Hods. now rewrite !length_map in Hods.
  - rewrite for_agents_maps. apply ensure_agents_maps.
Qed.

(** X14: a network that already has agents keeps them: the column pool
    passed to [find_path_for_agents] is then not looked at. *)
Theorem existing_agents_ignore_column_pool fuel pool1 pool2 engine_type w :
  agents (net w) <> [] ->
  find_path_for_agents fuel pool1 engine_type w
  = find_path_for_agents fuel pool2 engine_type w.
Proof.
  intros Hags. rewrite !find_path_for_agents_eq, !ensure_agents_eq.
  assert (Hcount : (get_agent_count (net w) =? 0) = false).
  { unfold get_agent_count. destruct (agents (net w)); [contradiction | reflexivity]. }
  now rewrite Hcount.
Qed.

Lemma agent_iteration_prev fuel engine_type prev i w :
  _prev_cost_type (snd (agent_iteration fuel engine_type prev i w)) = engine_type \/
  (_prev_cost_type (snd (agent_iteration fuel engine_type prev i w)) = _prev_cost_type w /\
   calls (snd (agent_iteration fuel engine_type prev i w)) = calls w).
Proof.
  rewrite agent_iteration_cases.
  destruct (agents (net w) !! i) as [a |]; [| now right].
  destruct (String.eqb (o_node_id a) (d_node_id a)); [now right |].
  destruct (map_id_to_no (net w) !! o_node_id a) as [n |]; [| now right].
  destruct (map_id_to_no (net w) !! d_node_id a) as [m |]; [| now right].
  cbv zeta. cbn [snd].
  match goal with |- context [set_up_path fuel i (d_node_id a) ?x] => set (w1 := x) end.
  destruct (net_only_set_up_path fuel i (d_node_id a) w1 w1 eq_refl) as (_ & _ & -> & ->).
  subst w1. destruct (String.eqb (o_node_id a) prev); [now right | left].
  apply single_source_shortest_path_prev.
Qed.

Lemma for_agents_prev fuel engine_type positions :
  forall prev w,
    _prev_cost_type (snd (for_agents (agent_iteration fuel engine_type) prev positions w))
    = engine_type \/
    (_prev_cost_type (snd (for_agents (agent_iteration fuel engine_type) prev positions w))
     = _prev_cost_type w /\
     calls (snd (for_agents (agent_iteration fuel engine_type) prev positions w)) = calls w).
Proof.
  induction positions as [| j rest IH]; intros prev w; [now right |].
  rewrite for_agents_cons.
  pose proof (agent_iteration_prev fuel engine_type prev j w) as Hstep.
  destruct (agent_iteration fuel engine_type prev j w) as [[p | e] w1]; cbn [snd] in *;
    [| exact Hstep].
  destruct (IH p w1) as [Het | [Hp Hc]]; [now left |].
  destruct Hstep as [Het | [Hp' Hc']]; [left | right]; split || idtac; congruence.
Qed.

(** X15: [find_path_for_agents] passes its [engine_type] argument ('c' by
    default) to [single_source_shortest_path] as the cost selector: after
    a completed loop in which at least one agent reached the engine step,
    [_prev_cost_type] is that string, so the next query under "time" or
    "distance" rebuilds the cost array. *)
Theorem find_path_for_agents_leaves_engine_type fuel column_pool engine_type w :
  map_id_to_no (net w) !! "" = None ->
  fst (find_path_for_agents fuel column_pool engine_type w) = Return tt ->
  processed_origins (map od (agents (net (snd (ensure_agents column_pool w))))) <> [] ->
  _prev_cost_type (snd (find_path_for_agents fuel column_pool engine_type w)) = engine_type.
Proof.
  intros Hempty Hret Hsome.
  rewrite find_path_for_agents_snd. rewrite find_path_for_agents_eq in Hret.
  pose proof (ensure_agents_maps column_pool w) as Hmaps.
  set (w0 := snd (ensure_agents column_pool w)) in *.
  pose proof (for_agents_prev fuel engine_type (seq 0 (length (agents (net w0)))) "" w0)
    as Hprev.
  pose proof (for_agents_engine_calls fuel engine_type (seq 0 (length (agents (net w0))))
                "" w0) as Hlog.
  destruct (for_agents (agent_iteration fuel engine_type) "" _ w0) as [[p | e] w'];
    [| discriminate].
  cbn [snd] in *.
  destruct Hprev as [Het | [_ Hcalls]]; [exact Het | exfalso].
  destruct (Hlog p w' eq_refl ltac:(now rewrite Hmaps)) as (ns & Hns & Hc).
  pose proof (omap_lookup_seq od (agents (net w0)) []) as Hods.
  cbn [app length] in Hods. rewrite Hods in Hns.
  rewrite Hcalls in Hc.
  assert (Hnil : ns = []).
  { apply (f_equal length) in Hc. rewrite length_app in Hc.
    destruct ns; [reflexivity | simpl in Hc; lia]. }
  subst ns. apply Forall2_nil_inv_r in Hns.
  destruct (processed_origins (map od (agents (net w0)))) as [| o os];
    [contradiction | discriminate].
Qed.

(** ** Path reconstruction, twice *)

Lemma retrieve_sequence_nodes fuel G :
  forall n np lp np' lp',
    retrieve_sequence fuel G n np lp = Return (np', lp') ->
    walk_node_preds fuel G n np = Return np'.
Proof.
  induction fuel as [| fuel IH]; intros n np lp np' lp' Hr; simpl in *;
    destruct (0 <=? n); try discriminate; try congruence.
  destruct (getitem (link_preds G) n) as [l |]; [| discriminate].
  destruct (getitem (node_preds G) n) as [p |]; [| discriminate].
  now apply IH in Hr.
Qed.

Lemma walk_node_preds_starts fuel G :
  forall n acc r,
    walk_node_preds fuel G n acc = Return r ->
    (0 <= n -> exists t, r = acc ++ n :: t) /\ (n < 0 -> r = acc).
Proof.
  induction fuel as [| fuel IH]; intros n acc r Hw; simpl in Hw;
    destruct (Z.leb_spec 0 n) as [Hn | Hn]; try discriminate.
  - injection Hw as <-. split; [lia | reflexivity].
  - destruct (getitem (node_preds G) n) as [p |]; [| discriminate].
    split; [intros _ | lia].
    destruct (IH _ _ _ Hw) as [Hge Hlt].
    destruct (Z.leb_spec 0 p) as [Hp | Hp].
    + destruct (Hge Hp) as [t ->]. exists (p :: t). now rewrite <- app_assoc.
    + rewrite (Hlt Hp). now exists [].
  - injection Hw as <-. split; [lia | reflexivity].
Qed.

(** X16: the [node_path] the agent loop collects is the sequence
    [output_path_sequence] walks in node mode, before it is reversed: the
    agent's list starts at the destination, and its reverse is the list
    of node numbers [output_path_sequence] turns into identifiers. *)
Theorem agent_node_path_is_backward fuel G to_node_id type n np lp :
  map_id_to_no G !! to_node_id = Some n ->
  0 <= n ->
  startswith type "node" = true ->
  retrieve_sequence fuel G n [] [] = Return (np, lp) ->
  (exists t, np = n :: t) /\
  output_path_sequence fuel G to_node_id type
  = yield_all (fun node_no => dict_getitem (map_no_to_id G) node_no) (rev np).
Proof.
  intros Eto Hn Htype Hr.
  pose proof (retrieve_sequence_nodes _ _ _ _ _ _ _ Hr) as Hw.
  split.
  - destruct (walk_node_preds_starts _ _ _ _ _ Hw) as [Hge _].
    destruct (Hge Hn) as [t ->]. eauto.
  - unfold output_path_sequence, dict_getitem. now rewrite Eto, Htype, Hw.
Qed.

Lemma retrieve_sequence_links fuel G :
  (forall m l p, 0 <= m -> getitem (link_preds G) m = Return l ->
     getitem (node_preds G) m = Return p -> (0 <= l <-> 0 <= p)) ->
  forall n l np lp np' lp',
    0 <= n ->
    getitem (link_preds G) n = Return l ->
    retrieve_sequence fuel G n np lp = Return (np', lp') ->
    walk_link_preds fuel G n l lp = Return lp'.
Proof.
  intros Hcons. induction fuel as [| fuel IH]; intros n l np lp np' lp' Hn El Hr;
    simpl in Hr; destruct (Z.leb_spec 0 n) as [_ | ?]; try lia; try discriminate.
  rewrite El in Hr.
  destruct (getitem (node_preds G) n) as [p |] eqn:Ep; [| discriminate].
  pose proof (Hcons n l p Hn El Ep) as Hlp.
  simpl. destruct (Z.leb_spec 0 l) as [Hl | Hl].
  - rewrite Ep. assert (Hp : 0 <= p) by now apply Hlp.
    destruct (getitem (link_preds G) p) as [l' |] eqn:El'.
    + exact (IH p l' _ _ _ _ Hp El' Hr).
    + destruct fuel; simpl in Hr; (destruct (Z.leb_spec 0 p); [| lia]);
        [discriminate | now rewrite El' in Hr].
  - assert (Hp : p < 0) by (destruct (Z.leb_spec 0 p) as [Hp | Hp]; [apply Hlp in Hp |]; lia).
    destruct fuel; simpl in Hr; (destruct (Z.leb_spec 0 p); [lia |]);
      now injection Hr as _ <-.
Qed.

(** X17: on predecessor arrays in which a node has a predecessor link
    exactly when it has a predecessor node, the [link_path] the agent loop
    collects is the sequence [output_path_sequence] walks in link mode,
    before it is reversed. *)
Theorem agent_link_path_is_backward fuel G to_node_id type n np lp :
  (forall m l p, 0 <= m -> getitem (link_preds G) m = Return l ->
     getitem (node_preds G) m = Return p -> (0 <= l <-> 0 <= p)) ->
  map_id_to_no G !! to_node_id = Some n ->
  0 <= n ->
  startswith type "node" = false ->
  retrieve_sequence fuel G n [] [] = Return (np, lp) ->
  output_path_sequence fuel G to_node_id type
  = yield_all (fun link_no => match getitem (links G) link_no with
                              | Return l => Return (link_id l)
                              | Raise e => Raise e
                              end) (rev lp).
Proof.
  intros Hcons Eto Hn Htype Hr.
  assert (El : exists l, getitem (link_preds G) n = Return l).
  { destruct fuel; simpl in Hr; (destruct (Z.leb_spec 0 n); [| lia]); [discriminate |].
    destruct (getitem (link_preds G) n) as [l |]; [eauto | discriminate]. }
  destruct El as [l El].
  unfold output_path_sequence, dict_getitem. rewrite Eto, Htype, El.
  now rewrite (retrieve_sequence_links fuel G Hcons n l [] [] np lp Hn El Hr).
Qed.

Lemma yield_all_last {A B : Type} (f : A -> outcome B) l x ys :
  yield_all f (l ++ [x]) = Return ys ->
  exists front y, ys = front ++ [y] /\ f x = Return y.
Proof.
  revert ys. induction l as [| a l IH]; intros ys Hy; simpl in Hy.
  - destruct (f x) as [y |]; [| discriminate]. injection Hy as <-. now exists [], y.
  - destruct (f a) as [b |]; [| discriminate].
    destruct (yield_all f (l ++ [x])) as [ys' |]; [| discriminate].
    injection Hy as <-. destruct (IH ys' eq_refl) as (front & y & -> & Hx).
    now exists (b :: front), y.
Qed.

(** X18: a node sequence that [output_path_sequence] returns ends with
    the identifier [map_no_to_id] gives for the destination's number. *)
Theorem node_sequence_ends_at_destination fuel G to_node_id type n ids :
  map_id_to_no G !! to_node_id = Some n ->
  0 <= n ->
  startswith type "node" = true ->
  output_path_sequence fuel G to_node_id type = Return ids ->
  exists front last_id,
    ids = front ++ [last_id] /\ map_no_to_id G !! n = Some last_id.
Proof.
  intros Eto Hn Htype Hs. unfold output_path_sequence, dict_getitem in Hs.
  rewrite Eto, Htype in Hs.
  destruct (walk_node_preds fuel G n []) as [path |] eqn:Hw; [| discriminate].
  destruct (walk_node_preds_starts _ _ _ _ _ Hw) as [Hge _].
  destruct (Hge Hn) as [t ->]. simpl in Hs.
  destruct (yield_all_last _ _ _ _ Hs) as (front & y & -> & Hy).
  exists front, y. split; [reflexivity |].
  destruct (map_no_to_id G !! n); [now injection Hy as -> | discriminate].
Qed.

(** ** The CSV export *)

Lemma csv_data_complete (format_2f : float -> string) row_nodes matrix :
  forall i,
    (i + length matrix <= length row_nodes)%nat ->
    exists lines,
      csv_data format_2f row_nodes (Z.of_nat i) matrix = (lines, None) /\
      length lines = length matrix /\
      (forall k row, matrix !! k = Some row ->
         exists r, row_nodes !! (i + k)%nat = Some r /\
                   lines !! k = Some (r :: map format_2f row)).
Proof.
  induction matrix as [| row rest IH]; intros i Hlen.
  - exists []. split; [reflexivity |]. split; [reflexivity |]. intros k r Hk.
    now rewrite lookup_nil in Hk.
  - simpl in Hlen. simpl csv_data.
    rewrite getitem_nonneg by lia. rewrite Nat2Z.id.
    destruct (lookup_lt_is_Some_2 row_nodes i ltac:(lia)) as [r Hr]. rewrite Hr.
    destruct (IH (S i) ltac:(lia)) as (lines & Hd & Hl & Hk).
    replace (Z.of_nat i + 1) with (Z.of_nat (S i)) by lia. rewrite Hd.
    exists ((r :: map format_2f row) :: lines).
    split; [reflexivity |]. split; [simpl; now rewrite Hl |].
    intros [| k] row' Hrow'; simpl in Hrow'.
    + injection Hrow' as <-. exists r. now rewrite Nat.add_0_r.
    + destruct (Hk k row' Hrow') as (r' & Hr' & Hline). exists r'.
      now rewrite Nat.add_succ_r.
Qed.

Lemma csv_data_short (format_2f : float -> string) row_nodes matrix :
  forall i,
    (i <= length row_nodes)%nat ->
    (length row_nodes < i + length matrix)%nat ->
    exists lines,
      csv_data format_2f row_nodes (Z.of_nat i) matrix = (lines, Some IndexError) /\
      (i + length lines = length row_nodes)%nat.
Proof.
  induction matrix as [| row rest IH]; intros i Hi Hlen; [simpl in Hlen; lia |].
  simpl in Hlen. simpl csv_data. rewrite getitem_nonneg by lia. rewrite Nat2Z.id.
  destruct (row_nodes !! i) as [r |] eqn:Hr.
  - apply lookup_lt_Some in Hr as Hlt.
    destruct (IH (S i) ltac:(lia) ltac:(lia)) as (lines & Hd & Hl).
    replace (Z.of_nat i + 1) with (Z.of_nat (S i)) by lia. rewrite Hd.
    exists ((r :: map format_2f row) :: lines). split; [reflexivity | simpl; lia].
  - apply lookup_ge_None in Hr. exists []. split; [reflexivity | simpl; lia].
Qed.

(** X19: for a matrix with no more rows than there are row nodes,
    [save_as_csv] writes the header and one line for every row of the
    matrix, each starting with the row's node and followed by the row's
    entries, and raises nothing. *)
Theorem save_as_csv_writes_every_row (format_2f : float -> string) matrix row_nodes :
  (length matrix <= length row_nodes)%nat ->
  exists lines,
    save_as_csv format_2f matrix row_nodes = (("" :: row_nodes) :: lines, None) /\
    length lines = length matrix /\
    (forall k row, matrix !! k = Some row ->
       exists r, row_nodes !! k = Some r /\
                 lines !! k = Some (r :: map format_2f row)).
Proof.
  intros Hlen. destruct (csv_data_complete format_2f row_nodes matrix 0%nat Hlen)
    as (lines & Hd & Hl & Hk).
  exists lines. unfold save_as_csv. change 0 with (Z.of_nat 0). rewrite Hd.
  split; [reflexivity |]. split; [exact Hl | exact Hk].
Qed.

(** X20: for a matrix with more rows than there are row nodes,
    [save_as_csv] ends with [IndexError], after it has written the header
    and as many lines as there are row nodes. *)
Theorem save_as_csv_more_rows_than_nodes (format_2f : float -> string) matrix row_nodes :
  (length row_nodes < length matrix)%nat ->
  exists lines,
    save_as_csv format_2f matrix row_nodes
    = (("" :: row_nodes) :: lines, Some IndexError) /\
    length lines = length row_nodes.
Proof.
  intros Hlen.
  destruct (csv_data_short format_2f row_nodes matrix 0%nat ltac:(lia) ltac:(lia))
    as (lines & Hd & Hl).
  exists lines. unfold save_as_csv. change 0 with (Z.of_nat 0). rewrite Hd.
  split; [reflexivity | exact Hl].
Qed.

End MoreProperties.

(** * The diamond network *)

Import Diamond.

Lemma diamond_allocates_once : AllocatesOnce.
Proof. split; reflexivity. Qed.

#[local] Existing Instance diamond_allocates_once.

Lemma relax_keeps_origin a t k :
  0 <= arg_origin_node_no a ->
  tree_label_costs t !! Z.to_nat (arg_origin_node_no a) = Some 0%float ->
  tree_label_costs (relax a t k) !! Z.to_nat (arg_origin_node_no a) = Some 0%float.
Proof.
  intros Ho Ht. unfold relax.
  destruct (arg_from_node_no_arr a !! k) as [u |]; [| exact Ht].
  destruct (arg_to_node_no_arr a !! k) as [v |]; [| exact Ht].
  destruct (arg_link_costs a !! k) as [c |]; [| exact Ht].
  destruct (Z.eqb_spec v (arg_origin_node_no a)) as [? | Hne]; [exact Ht |].
  destruct (Z.ltb_spec v 0) as [? | Hv]; [exact Ht |].
  destruct (u <? 0); [exact Ht |]. cbn [orb].
  destruct (tree_label_costs t !! Z.to_nat u) as [lu |]; [| exact Ht].
  destruct (tree_label_costs t !! Z.to_nat v) as [lv |]; [| exact Ht].
  destruct (PrimFloat.ltb (lu + c) lv); [| exact Ht].
  cbn [tree_label_costs]. rewrite list_lookup_insert_ne; [exact Ht |].
  intros Heq. apply Hne. now apply Z2Nat.inj.
Qed.

Lemma sweep_keeps_origin a t :
  0 <= arg_origin_node_no a ->
  tree_label_costs t !! Z.to_nat (arg_origin_node_no a) = Some 0%float ->
  tree_label_costs (sweep a t) !! Z.to_nat (arg_origin_node_no a) = Some 0%float.
Proof.
  intros Ho. unfold sweep. generalize (seq 0 (length (arg_from_node_no_arr a))).
  intros ks. revert t. induction ks as [| k ks IH]; intros t Ht; [exact Ht |].
  simpl. apply IH. now apply relax_keeps_origin.
Qed.

Lemma sweeps_keep_origin a k t :
  0 <= arg_origin_node_no a ->
  tree_label_costs t !! Z.to_nat (arg_origin_node_no a) = Some 0%float ->
  tree_label_costs (Nat.iter k (sweep a) t) !! Z.to_nat (arg_origin_node_no a)
  = Some 0%float.
Proof.
  intros Ho Ht. induction k as [| k IH]; [exact Ht |].
  simpl. now apply sweep_keeps_origin.
Qed.

Lemma diamond_origin_label_zero : OriginLabelZero.
Proof.
  intros a [Ho Hsize]. rewrite getitem_nonneg by exact Ho.
  assert (Hzero : tree_label_costs (label_correcting a) !! Z.to_nat (arg_origin_node_no a)
                  = Some 0%float).
  { unfold label_correcting. apply sweeps_keep_origin; [exact Ho |].
    simpl. apply list_lookup_insert_eq. rewrite length_replicate. lia. }
  change (shortest_path_n a) with (label_correcting a). now rewrite Hzero.
Qed.

#[local] Existing Instance diamond_origin_label_zero.

(** C1: on the diamond network, [get_shortest_path_tree] for the known
    node "1" returns [None]: no dictionary at all, where its docstring
    promises one with the three other nodes as keys. *)
Theorem get_shortest_path_tree_returns_None :
  fst (get_shortest_path_tree "1" "node" "time" false (module_load network)) = Return None.
Proof. vm_compute. reflexivity. Qed.

Lemma unknown_node_raises_before_engine_witness :
  exists node_id,
    (node_id = "9" \/ node_id = "1") /\
    map_id_to_no network !! node_id = None /\
    find_shortest_path 1 "9" "1" "node" "time" (module_load network)
    = (Raise (not_in_network node_id), module_load network) /\
    get_shortest_path "9" "1" "time" (module_load network)
    = (Raise (not_in_network node_id), module_load network).
Proof.
  apply (unknown_node_raises_before_engine 1 (module_load network) "9" "1" "node" "time").
  left. vm_compute. reflexivity.
Defined.

Lemma unreachable_destination_is_reported_witness :
  get_shortest_path "4" "1" "time" (module_load network)
  = (Return 9999999%float,
     snd (single_source_shortest_path "4" "time" (module_load network))) /\
  find_shortest_path 1 "4" "1" "node" "time" (module_load network)
  = (Return "path time: infinity | path: ",
     snd (single_source_shortest_path "4" "time" (module_load network))).
Proof.
  apply (unreachable_destination_is_reported 1 (module_load network) "4" "1" "node" "time"
           3 0 MAX).
  - vm_compute. reflexivity.
  - vm_compute. reflexivity.
  - vm_compute. reflexivity.
  - vm_compute. reflexivity.
Defined.

Lemma output_path_sequence_at_origin_witness :
  output_path_sequence 1
    (net (snd (single_source_shortest_path "1" "time" (module_load network)))) "1" "node"
  = Return ["1"] /\
  output_path_sequence 1
    (net (snd (single_source_shortest_path "1" "time" (module_load network)))) "1" "link"
  = Return [].
Proof.
  split.
  - apply (output_path_sequence_at_origin 1 _ "1" 0 (-1) (-1) "node");
      try (vm_compute; reflexivity); lia.
  - apply (output_path_sequence_at_origin 1 _ "1" 0 (-1) (-1) "link");
      try (vm_compute; reflexivity); lia.
Defined.

(** C4 (as stated): after a distance query on one network, the same query
    on a second network finds [_prev_cost_type] already at "distance",
    does not rebuild, and runs the engine on that network's time costs. *)
Lemma cost_array_stale_on_second_network :
  calls after_second_network
  = calls after_first_network ++ [CallAllocate; CallEngine 0] /\
  link_costs (capi (net after_second_network))
  <> init_link_costs (links (net after_second_network)) "distance".
Proof.
  split; [vm_compute; reflexivity |].
  intros Heq.
  apply (f_equal (fun l => match l with
                           | x :: _ => PrimFloat.eqb x 1
                           | [] => false
                           end)) in Heq.
  vm_compute in Heq. discriminate Heq.
Qed.

Lemma cost_array_follows_prev_cost_type_witness :
  calls (snd (single_source_shortest_path "1" "distance" (module_load network)))
  = [CallAllocate; CallInitLinkCosts "distance"; CallEngine 0] /\
  link_costs (capi (net (snd (single_source_shortest_path "1" "distance"
                                (module_load network)))))
  = map link_length the_links.
Proof.
  destruct (cost_array_follows_prev_cost_type (module_load network) "1" "distance" 0)
    as (Hcalls & _ & Hcosts).
  - vm_compute. reflexivity.
  - split; [exact Hcalls |].
    destruct Hcosts as (_ & Hafter & _); [vm_compute; reflexivity | exact Hafter].
Defined.

Lemma selector_switch_reproduces_time_tree_witness :
  node_label_cost
    (net (snd (single_source_shortest_path "1" "time"
                 (snd (single_source_shortest_path "1" "distance"
                         (snd (single_source_shortest_path "1" "time"
                                 (module_load network))))))))
  = node_label_cost (net (snd (single_source_shortest_path "1" "time" (module_load network)))).
Proof.
  destruct (selector_switch_reproduces_time_tree (module_load network) "1" 0)
    as (Hlabels & _ & _).
  - vm_compute. reflexivity.
  - vm_compute. reflexivity.
  - exact Hlabels.
Defined.

Lemma mode_times_set_before_matrix_witness :
  exists converted,
    converted = map (fun l => set_fftt (link_length l * 5280 / 3 / 60)%float l) the_links /\
    apply_mode pedestrian (module_load network)
    = (Return tt, with_links converted (module_load network)) /\
    find_shortest_path_network "out" ".csv" "time" pedestrian (module_load network)
    = export_skim "out" ".csv" "time" pedestrian ["1"; "4"]
        (with_links converted (module_load network)).
Proof.
  destruct (mode_times_set_before_matrix (module_load network) "out" ".csv" "time"
              pedestrian ["1"; "4"])
    as (converted & Hp & _ & _ & Happly & Hrun & _).
  - right. reflexivity.
  - vm_compute. reflexivity.
  - reflexivity.
  - vm_compute. reflexivity.
  - exists converted. split; [exact (Hp eq_refl) |]. split; [exact Happly | exact Hrun].
Defined.

Lemma skim_matrix_entries_witness :
  exists matrix,
    fst (create_numpy_matrix_parallel ["1"; "4"; "2"] "time" (module_load network))
    = Return matrix /\
    length matrix = 3%nat /\
    (forall i ri, ["1"; "4"; "2"] !! i = Some ri ->
       exists row, matrix !! i = Some row /\ row !! i = Some 0%float).
Proof.
  destruct (skim_matrix_entries (module_load network) ["1"; "4"; "2"] "time")
    as (matrix & Hm & Hlen & _ & Hdiag).
  - intros ri rj Hri Hrj.
    repeat (apply elem_of_cons in Hri as [-> | Hri]);
      [| | | now apply elem_of_nil in Hri];
      (repeat (apply elem_of_cons in Hrj as [-> | Hrj]);
       [| | | now apply elem_of_nil in Hrj]);
      eexists; vm_compute; reflexivity.
  - intros r n Hr Hn.
    repeat (apply elem_of_cons in Hr as [-> | Hr]);
      [| | | now apply elem_of_nil in Hr];
      vm_compute in Hn; injection Hn as <-; vm_compute; split; discriminate || reflexivity.
  - vm_compute. reflexivity.
  - exists matrix. split; [exact Hm |]. split; [exact Hlen | exact Hdiag].
Defined.

Lemma repeated_origin_cache_refines_witness :
  fst (find_path_for_agents 5 demand "c" (module_load network))
  = fst (find_path_for_agents_recompute 5 demand "c" (module_load network)) /\
  net (snd (find_path_for_agents 5 demand "c" (module_load network)))
  = net (snd (find_path_for_agents_recompute 5 demand "c" (module_load network))).
Proof.
  destruct (repeated_origin_cache_refines 5 demand "c" (module_load network))
    as (Hout & Hnet & _).
  - vm_compute. reflexivity.
  - split; [exact Hout | exact Hnet].
Defined.

Lemma agents_without_path_keep_their_paths_witness :
  agents (net (snd (find_path_for_agents 5 demand "c" (module_load network)))) !! 3%nat
  = Some (set_path_cost MAX (new_agent ("4", "1"))).
Proof.
  destruct (agents_without_path_keep_their_paths 5 demand "c" (module_load network) 3
              (new_agent ("4", "1"))) as [_ Hunreachable].
  - vm_compute. reflexivity.
  - destruct (Hunreachable "1"
                (snd (for_agents (agent_iteration 5 "c") "" (seq 0 3)
                        (snd (ensure_agents demand (module_load network)))))
                3 0 MAX (-1) (-1)) as (Hagent & _).
    + vm_compute. reflexivity.
    + discriminate.
    + vm_compute. reflexivity.
    + vm_compute. reflexivity.
    + lia.
    + vm_compute. reflexivity.
    + vm_compute. reflexivity.
    + vm_compute. reflexivity.
    + lia.
    + vm_compute. reflexivity.
    + lia.
    + lia.
    + exact Hagent.
Defined.

(** ** Runs of the further properties on the diamond network *)

Lemma unsupported_output_type_raises_first_witness :
  find_shortest_path_network "out" ".txt" "time" pedestrian (module_load network)
  = (Raise (ValueError "Error: Unsupported output type '.txt'."), module_load network).
Proof.
  apply (unsupported_output_type_raises_first (module_load network) "out" ".txt" "time"
           pedestrian); discriminate.
Defined.

Lemma other_cost_type_never_exports_witness :
  exists e,
    fst (find_shortest_path_network "out" ".csv" "dist" pedestrian (module_load network))
    = Raise e.
Proof.
  apply (other_cost_type_never_exports (module_load network) "out" ".csv" "dist" pedestrian);
    discriminate.
Defined.

Lemma get_shortest_path_below_sentinel_witness :
  (3%float = 9999999%float \/ PrimFloat.leb MAX_LABEL_COST 3 = false) /\
  snd (get_shortest_path "1" "4" "time" (module_load network))
  = snd (single_source_shortest_path "1" "time" (module_load network)).
Proof.
  apply (get_shortest_path_below_sentinel (module_load network) "1" "4" "time").
  vm_compute. reflexivity.
Defined.

Lemma same_selector_never_rebuilds_witness :
  calls (snd (single_source_shortest_path "4" "distance"
                (snd (single_source_shortest_path "1" "distance" (module_load network)))))
  = calls (snd (single_source_shortest_path "1" "distance" (module_load network)))
    ++ [CallAllocate; CallEngine 3].
Proof.
  destruct (same_selector_never_rebuilds (module_load network) "1" "distance") as [_ Hnext].
  apply Hnext. vm_compute. reflexivity.
Defined.


Lemma zero_speed_raises_before_any_change_witness :
  apply_mode {| mode_type := "b"; ffs := 0%float; mode_name := "bike" |}
    (module_load network)
  = (Raise ZeroDivisionError, module_load network).
Proof.
  apply (zero_speed_raises_before_any_change (module_load network)
           {| mode_type := "b"; ffs := 0%float; mode_name := "bike" |}
           {| link_id := "1"; link_length := 0.5%float; fftt := 1%float;
              allowed_uses := "a;p" |}
           (tail the_links)).
  - right. reflexivity.
  - vm_compute. reflexivity.
  - reflexivity.
  - simpl. lia.
Defined.

Lemma apply_mode_idempotent_witness :
  apply_mode pedestrian (snd (apply_mode pedestrian (module_load network)))
  = (Return tt, snd (apply_mode pedestrian (module_load network))).
Proof.
  apply (apply_mode_idempotent (module_load network) pedestrian).
  - reflexivity.
  - vm_compute. reflexivity.
Defined.

Lemma full_conversion_overwrites_witness :
  apply_mode {| mode_type := "b"; ffs := 12%float; mode_name := "bike" |}
    (snd (apply_mode pedestrian (module_load network)))
  = apply_mode {| mode_type := "b"; ffs := 12%float; mode_name := "bike" |}
      (module_load network).
Proof.
  apply (full_conversion_overwrites (module_load network) pedestrian
           {| mode_type := "b"; ffs := 12%float; mode_name := "bike" |}).
  - right. reflexivity.
  - reflexivity.
  - vm_compute. reflexivity.
  - vm_compute. reflexivity.
Defined.

Lemma transit_after_pedestrian_keeps_walk_times_witness :
  apply_mode {| mode_type := "t"; ffs := 3%float; mode_name := "transit" |}
    (snd (apply_mode pedestrian (module_load network)))
  = (Return tt, snd (apply_mode pedestrian (module_load network))).
Proof.
  apply (transit_after_pedestrian_keeps_walk_times (module_load network) pedestrian
           {| mode_type := "t"; ffs := 3%float; mode_name := "transit" |}).
  - reflexivity.
  - reflexivity.
  - reflexivity.
  - reflexivity.
  - vm_compute. reflexivity.
Defined.

Lemma skim_matrix_is_square_witness :
  length [[0%float; 3%float; 1%float];
          [9999999%float; 0%float; 9999999%float];
          [9999999%float; 2%float; 0%float]] = 3%nat /\
  Forall (fun row : list float => length row = 3%nat)
    [[0%float; 3%float; 1%float];
     [9999999%float; 0%float; 9999999%float];
     [9999999%float; 2%float; 0%float]].
Proof.
  apply (skim_matrix_is_square (module_load network) ["1"; "4"; "2"] "time").
  vm_compute. reflexivity.
Defined.

Lemma unknown_row_node_aborts_matrix_witness :
  exists e,
    fst (create_numpy_matrix_parallel ["1"; "40"; "2"] "time" (module_load network))
    = Raise e.
Proof.
  apply (unknown_row_node_aborts_matrix (module_load network) ["1"; "40"; "2"] "time" "40").
  - apply elem_of_cons. right. apply elem_of_cons. now left.
  - vm_compute. reflexivity.
Defined.

Lemma skim_matrix_runs_engine_per_entry_witness :
  exists nos,
    Forall2 (fun r n => map_id_to_no network !! r = Some n) ["1"; "4"] nos /\
    engine_calls
      (calls (snd (create_numpy_matrix_parallel ["1"; "4"] "time" (module_load network))))
    = engine_calls [] ++ flat_map (replicate 2) nos /\
    length (flat_map (replicate 2) nos) = 4%nat.
Proof.
  apply (skim_matrix_runs_engine_per_entry (module_load network) ["1"; "4"] "time"
           [[0%float; 3%float]; [9999999%float; 0%float]]).
  vm_compute. reflexivity.
Defined.

Lemma existing_agents_ignore_column_pool_witness :
  find_path_for_agents 5 [] "c" (snd (ensure_agents demand (module_load network)))
  = find_path_for_agents 5 [("4", "1")] "c"
      (snd (ensure_agents demand (module_load network))).
Proof.
  apply (existing_agents_ignore_column_pool 5 [] [("4", "1")] "c"
           (snd (ensure_agents demand (module_load network)))).
  vm_compute. discriminate.
Defined.

Lemma find_path_for_agents_leaves_engine_type_witness :
  _prev_cost_type (snd (find_path_for_agents 5 demand "c" (module_load network))) = "c".
Proof.
  apply (find_path_for_agents_leaves_engine_type 5 demand "c" (module_load network)).
  - vm_compute. reflexivity.
  - vm_compute. reflexivity.
  - vm_compute. discriminate.
Defined.

Lemma agent_node_path_is_backward_witness :
  (exists t, [3; 1; 0] = 3 :: t) /\
  output_path_sequence 5
    (net (snd (single_source_shortest_path "1" "time" (module_load network)))) "4" "node"
  = yield_all
      (fun node_no =>
         dict_getitem
           (map_no_to_id
              (net (snd (single_source_shortest_path "1" "time" (module_load network)))))
           node_no)
      (rev [3; 1; 0]).
Proof.
  apply (agent_node_path_is_backward 5
           (net (snd (single_source_shortest_path "1" "time" (module_load network))))
           "4" "node" 3 [3; 1; 0] [2; 0]).
  - vm_compute. reflexivity.
  - lia.
  - reflexivity.
  - vm_compute. reflexivity.
Defined.

Lemma agent_link_path_is_backward_witness :
  output_path_sequence 5
    (net (snd (single_source_shortest_path "1" "time" (module_load network)))) "4" "link"
  = Return ["1"; "3"].
Proof.
  rewrite (agent_link_path_is_backward 5
             (net (snd (single_source_shortest_path "1" "time" (module_load network))))
             "4" "link" 3 [3; 1; 0] [2; 0]).
  - vm_compute. reflexivity.
  - intros m l p Hm Hl Hp.
    rewrite getitem_nonneg in Hl, Hp by exact Hm.
    destruct (Z.to_nat m) as [| [| [| [| k]]]]; vm_compute in Hl, Hp;
      try discriminate; injection Hl as <-; injection Hp as <-; lia.
  - vm_compute. reflexivity.
  - lia.
  - reflexivity.
  - vm_compute. reflexivity.
Defined.

Lemma node_sequence_ends_at_destination_witness :
  exists front last_id,
    ["1"; "2"; "4"] = front ++ [last_id] /\
    map_no_to_id
      (net (snd (single_source_shortest_path "1" "time" (module_load network)))) !! 3
    = Some last_id.
Proof.
  apply (node_sequence_ends_at_destination 5
           (net (snd (single_source_shortest_path "1" "time" (module_load network))))
           "4" "node" 3 ["1"; "2"; "4"]).
  - vm_compute. reflexivity.
  - lia.
  - reflexivity.
  - vm_compute. reflexivity.
Defined.

Lemma save_as_csv_writes_every_row_witness :
  exists lines,
    save_as_csv (fun _ => "0.00") [[0%float; 3%float]; [9999999%float; 0%float]] ["1"; "4"]
    = ([""; "1"; "4"] :: lines, None) /\
    length lines = 2%nat /\
    (forall k row,
       [[0%float; 3%float]; [9999999%float; 0%float]] !! k = Some row ->
       exists r, ["1"; "4"] !! k = Some r /\
                 lines !! k = Some (r :: map (fun _ => "0.00") row)).
Proof.
  apply (save_as_csv_writes_every_row (fun _ => "0.00")
           [[0%float; 3%float]; [9999999%float; 0%float]] ["1"; "4"]).
  simpl. lia.
Defined.

Lemma save_as_csv_more_rows_than_nodes_witness :
  exists lines,
    save_as_csv (fun _ => "0.00") [[0%float; 3%float]; [9999999%float; 0%float]] ["1"]
    = ([""; "1"] :: lines, Some IndexError) /\
    length lines = 1%nat.
Proof.
  apply (save_as_csv_more_rows_than_nodes (fun _ => "0.00")
           [[0%float; 3%float]; [9999999%float; 0%float]] ["1"]).
  simpl. lia.
Defined.
